(** * mongodb_mcp: the validation and sanitisation gateway

    A shallow embedding of [security/sanitizer.py], [security/validator.py],
    [handlers/document.py] and [handlers/aggregation.py], and the properties
    of the gateway proved over it.

    Python values are a tagged tree ([pyobj]); a [str] is its sequence of
    Unicode code points; a [dict] is an insertion-ordered association list
    with string keys (the handlers are typed [Dict[str, Any]] and receive
    their input from a JSON transport). Exceptions are an explicit result
    type; the handlers run in a small monad that threads the trace of calls
    made to the validator, the sanitizer and the store. *)

From Stdlib Require Import List ZArith NArith Lia Bool String Ascii DecimalString.
Import ListNotations.

(** ** Python strings *)

Definition codepoint := N.
Definition pystr := list codepoint.

Definition py (s : string) : pystr := map N_of_ascii (list_ascii_of_string s).
Arguments py s%_string.

Definition str_eqb (a b : pystr) : bool :=
  if list_eq_dec N.eq_dec a b then true else false.

Definition str_in (k : pystr) (set : list pystr) : bool := existsb (str_eqb k) set.

(** [str(n)] for a Python int. *)
Definition str_of_int (z : Z) : pystr := py (NilZero.string_of_int (Z.to_int z)).

(** ** Python values and exceptions *)

Unset Elimination Schemes.
Inductive pyobj : Type :=
| PyNone
| PyBool (b : bool)
| PyInt (z : Z)
| PyFloat (bits : Z)
| PyStr (s : pystr)
| PyObjectId (hex : pystr)
| PyDatetime (millis : Z)
| PyBytes (data : list N)
| PyList (items : list pyobj)
| PyDict (items : list (pystr * pyobj)).
Set Elimination Schemes.

Definition dict := list (pystr * pyobj).

(** The type's name as CPython prints it in ["'T' object has no attribute ..."]. *)
Definition type_name (o : pyobj) : pystr :=
  match o with
  | PyNone => py "NoneType"
  | PyBool _ => py "bool"
  | PyInt _ => py "int"
  | PyFloat _ => py "float"
  | PyStr _ => py "str"
  | PyObjectId _ => py "ObjectId"
  | PyDatetime _ => py "datetime.datetime"
  | PyBytes _ => py "bytes"
  | PyList _ => py "list"
  | PyDict _ => py "dict"
  end.

Inductive exn : Type :=
| ValueError (msg : pystr)
| PermissionError (msg : pystr)
| RuntimeError (msg : pystr)
| AttributeError (msg : pystr)
| OperationFailure (msg : pystr)
| OtherException (cls : pystr) (msg : pystr).

Inductive exn_class : Type :=
| ClsValueError | ClsPermissionError | ClsRuntimeError | ClsAttributeError
| ClsOperationFailure | ClsOther (name : pystr).

Definition class_of (e : exn) : exn_class :=
  match e with
  | ValueError _ => ClsValueError
  | PermissionError _ => ClsPermissionError
  | RuntimeError _ => ClsRuntimeError
  | AttributeError _ => ClsAttributeError
  | OperationFailure _ => ClsOperationFailure
  | OtherException c _ => ClsOther c
  end.

(** [str(e)], as the f-strings of the handlers print an exception. *)
Definition str_of_exn (e : exn) : pystr :=
  match e with
  | ValueError m | PermissionError m | RuntimeError m
  | AttributeError m | OperationFailure m | OtherException _ m => m
  end.

Inductive result (A : Type) : Type :=
| OK (a : A)
| Raise (e : exn).
Arguments OK {A} a.
Arguments Raise {A} e.

Definition rbind {A B} (r : result A) (k : A -> result B) : result B :=
  match r with
  | OK a => k a
  | Raise e => Raise e
  end.

Declare Scope result_scope.
Delimit Scope result_scope with result.
Notation "'let*' x := r 'in' k" := (rbind r (fun x => k))
  (at level 10, x name, r at level 100, k at level 200) : result_scope.
Notation "r ;;; k" := (rbind r (fun _ => k))
  (at level 61, right associativity) : result_scope.
Local Open Scope result_scope.

(** [for x in l: body x], stopping at the first exception. *)
Definition for_each {A} (body : A -> result unit) : list A -> result unit :=
  fix each (l : list A) : result unit :=
    match l with
    | [] => OK tt
    | x :: rest => body x ;;; each rest
    end.

(** [[f x for x in l]], stopping at the first exception. *)
Definition comprehension {A B} (f : A -> result B) : list A -> result (list B) :=
  fix each (l : list A) : result (list B) :=
    match l with
    | [] => OK []
    | x :: rest => let* y := f x in let* ys := each rest in OK (y :: ys)
    end.

(** [for x in l: acc = body acc x], stopping at the first exception. *)
Definition for_each_acc {A S} (body : S -> A -> result S) : list A -> S -> result S :=
  fix each (l : list A) (acc : S) : result S :=
    match l with
    | [] => OK acc
    | x :: rest => let* acc' := body acc x in each rest acc'
    end.

(** A call was rejected with a [ValueError] (the class both validators and
    the sanitizer raise). *)
Definition rejects {A} (r : result A) : Prop := exists msg, r = Raise (ValueError msg).

(** ** Dictionaries *)

Definition dict_keys (d : dict) : list pystr := map fst d.

(** [key in d] *)
Definition dict_contains (key : pystr) (d : dict) : bool := str_in key (dict_keys d).

(** [d[key] = value]: an existing key keeps its position, a new key goes last. *)
Fixpoint dict_set (key : pystr) (value : pyobj) (d : dict) : dict :=
  match d with
  | [] => [(key, value)]
  | (k, v) :: rest =>
      if str_eqb k key then (k, value) :: rest else (k, v) :: dict_set key value rest
  end.

Fixpoint dict_get (key : pystr) (d : dict) : option pyobj :=
  match d with
  | [] => None
  | (k, v) :: rest => if str_eqb k key then Some v else dict_get key rest
  end.

(** ** security/sanitizer.py *)

Module InputSanitizer.

Definition MAX_STRING_LENGTH : Z := 1000.
Definition MAX_QUERY_DEPTH : Z := 10.
Definition MAX_DOCUMENT_SIZE : Z := 16 * 1024 * 1024.

(** The character class [[\x00-\x08\x0B\x0C\x0E-\x1F\x7F]]. *)
Definition is_control (c : codepoint) : bool :=
  ((c <=? 8) || (c =? 11) || (c =? 12) || ((14 <=? c) && (c <=? 31)) || (c =? 127))%N.

(** The characters [str.strip()] removes: those for which [str.isspace] holds. *)
Definition is_space (c : codepoint) : bool :=
  (((9 <=? c) && (c <=? 13)) || ((28 <=? c) && (c <=? 32))
   || (c =? 133) || (c =? 160) || (c =? 5760)
   || ((8192 <=? c) && (c <=? 8202))
   || (c =? 8232) || (c =? 8233) || (c =? 8239) || (c =? 8287) || (c =? 12288))%N.

(** [re.sub(r'[...]', '', value)] *)
Definition remove_control (s : pystr) : pystr := filter (fun c => negb (is_control c)) s.

Fixpoint lstrip (s : pystr) : pystr :=
  match s with
  | [] => []
  | c :: rest => if is_space c then lstrip rest else s
  end.

Definition rstrip (s : pystr) : pystr := rev (lstrip (rev s)).

Definition strip (s : pystr) : pystr := rstrip (lstrip s).

Definition sanitize_string (value : pyobj) : result pystr :=
  match value with
  | PyStr s =>
      if (Z.of_nat (List.length s) >? MAX_STRING_LENGTH)%Z
      then Raise (ValueError (py "String exceeds maximum length " ++ str_of_int MAX_STRING_LENGTH))
      else OK (strip (remove_control s))
  | _ => Raise (ValueError (py "Expected string input"))
  end.

Fixpoint _check_depth (obj : pyobj) (current_depth : Z) : result unit :=
  if (current_depth >? MAX_QUERY_DEPTH)%Z
  then Raise (ValueError (py "Structure exceeds maximum depth " ++ str_of_int MAX_QUERY_DEPTH))
  else
    match obj with
    | PyDict items =>
        for_each (fun '(_, value) => _check_depth value (current_depth + 1)) items
    | PyList items =>
        for_each (fun item => _check_depth item (current_depth + 1)) items
    | _ => OK tt
    end.

(** The list comprehension of [_sanitize_dict], given the recursive call. *)
Definition sanitize_item (rec : pyobj -> result dict) (item : pyobj) : result pyobj :=
  match item with
  | PyDict _ => let* d := rec item in OK (PyDict d)
  | PyStr _ => let* s := sanitize_string item in OK (PyStr s)
  | _ => OK item
  end.

(** The keys of a [dict] are strings here, so [isinstance(key, str)] holds
    for every key and [clean_key] is always the sanitized key. *)
Fixpoint _sanitize_dict (obj : pyobj) : result dict :=
  match obj with
  | PyDict items =>
      for_each_acc
        (fun sanitized '(key, value) =>
           let* clean_key := sanitize_string (PyStr key) in
           match value with
           | PyStr _ =>
               let* s := sanitize_string value in
               OK (dict_set clean_key (PyStr s) sanitized)
           | PyDict _ =>
               let* d := _sanitize_dict value in
               OK (dict_set clean_key (PyDict d) sanitized)
           | PyList elems =>
               let* l := comprehension (sanitize_item _sanitize_dict) elems in
               OK (dict_set clean_key (PyList l) sanitized)
           | _ => OK (dict_set clean_key value sanitized)
           end)
        items []
  | _ => Raise (AttributeError (py "'" ++ type_name obj ++ py "' object has no attribute 'items'"))
  end.

Definition sanitize_query (query : pyobj) : result dict :=
  _check_depth query 0 ;;; _sanitize_dict query.

Section Document.
(** [json.dumps(document, default=str)] of the standard library. *)
Variable json_dumps : pyobj -> pystr.

Definition sanitize_document (document : pyobj) : result dict :=
  let doc_size := Z.of_nat (List.length (json_dumps document)) in
  if (doc_size >? MAX_DOCUMENT_SIZE)%Z
  then Raise (ValueError (py "Document size " ++ str_of_int doc_size
                            ++ py " exceeds limit " ++ str_of_int MAX_DOCUMENT_SIZE))
  else _check_depth document 0 ;;; _sanitize_dict document.
End Document.

End InputSanitizer.

(** ** security/validator.py *)

(** [s.startswith(prefix)] *)
Fixpoint startswith (prefix s : pystr) : bool :=
  match prefix, s with
  | [], _ => true
  | p :: prefix', c :: s' => (p =? c)%N && startswith prefix' s'
  | _ :: _, [] => false
  end.

Module QueryValidator.

Definition SAFE_QUERY_OPERATORS : list pystr :=
  map py ["$eq"; "$ne"; "$gt"; "$gte"; "$lt"; "$lte";
          "$in"; "$nin"; "$exists"; "$type"; "$regex";
          "$and"; "$or"; "$not"; "$nor"; "$size";
          "$elemMatch"; "$all"]%string.

Definition DANGEROUS_OPERATORS : list pystr :=
  map py ["$where"; "$expr"; "$jsonSchema"; "$text"]%string.

(** The operator check made on one key of a mapping. *)
Definition check_key (key : pystr) (allow_dangerous : bool) : result unit :=
  if startswith (py "$") key then
    if str_in key DANGEROUS_OPERATORS && negb allow_dangerous
    then Raise (ValueError (py "Dangerous operator '" ++ key ++ py "' not allowed in safe mode"))
    else if negb (str_in key SAFE_QUERY_OPERATORS) && negb (str_in key DANGEROUS_OPERATORS)
    then Raise (ValueError (py "Unknown or forbidden operator: " ++ key))
    else OK tt
  else OK tt.

Fixpoint _validate_dict (obj : pyobj) (allow_dangerous : bool) : result unit :=
  match obj with
  | PyDict items =>
      for_each
        (fun '(key, value) =>
           check_key key allow_dangerous ;;;
           match value with
           | PyDict _ => _validate_dict value allow_dangerous
           | PyList elems =>
               for_each
                 (fun item =>
                    match item with
                    | PyDict _ => _validate_dict item allow_dangerous
                    | _ => OK tt
                    end)
                 elems
           | _ => OK tt
           end)
        items
  | _ => Raise (AttributeError (py "'" ++ type_name obj ++ py "' object has no attribute 'items'"))
  end.

Definition validate_query (query : pyobj) (allow_dangerous : bool) : result unit :=
  _validate_dict query allow_dangerous.

End QueryValidator.

Module AggregationValidator.

Definition SAFE_STAGES : list pystr :=
  map py ["$match"; "$project"; "$sort"; "$limit"; "$skip";
          "$group"; "$unwind"; "$lookup"; "$addFields";
          "$count"; "$facet"; "$bucket"; "$sample"]%string.

Definition DANGEROUS_STAGES : list pystr :=
  map py ["$out"; "$merge"; "$geoNear"; "$graphLookup";
          "$function"; "$accumulator"; "$expr"]%string.

(** The body of the [for i, stage in enumerate(pipeline)] loop. *)
Definition check_stage (i : Z) (stage : pyobj) (allow_dangerous : bool) : result unit :=
  match stage with
  | PyDict items =>
      if negb (Nat.eqb (List.length items) 1)
      then Raise (ValueError (py "Stage " ++ str_of_int i ++ py " must contain exactly one operation"))
      else
        match dict_keys items with
        | [] => Raise (OtherException (py "StopIteration") [])
        | stage_name :: _ =>
            if str_in stage_name DANGEROUS_STAGES && negb allow_dangerous
            then Raise (ValueError (py "Dangerous stage '" ++ stage_name
                                      ++ py "' not allowed in safe mode"))
            else if negb (str_in stage_name SAFE_STAGES)
                    && negb (str_in stage_name DANGEROUS_STAGES)
            then Raise (ValueError (py "Unknown or forbidden stage: " ++ stage_name))
            else OK tt
        end
  | _ => Raise (ValueError (py "Stage " ++ str_of_int i ++ py " must be a dictionary"))
  end.

Fixpoint check_stages (i : Z) (stages : list pyobj) (allow_dangerous : bool) : result unit :=
  match stages with
  | [] => OK tt
  | stage :: rest =>
      check_stage i stage allow_dangerous ;;; check_stages (i + 1) rest allow_dangerous
  end.

Definition validate_pipeline (pipeline : list pyobj) (allow_dangerous : bool)
    (max_stages : Z) : result unit :=
  if (Z.of_nat (List.length pipeline) >? max_stages)%Z
  then Raise (ValueError (py "Pipeline exceeds maximum " ++ str_of_int max_stages ++ py " stages"))
  else check_stages 0 pipeline allow_dangerous.

End AggregationValidator.

(** ** The store driver and the handler monad *)

Record InsertOneResult := { inserted_id : pyobj; insert_acknowledged : bool }.
Record UpdateResult :=
  { matched_count : Z; modified_count : Z; upserted_id : pyobj; update_acknowledged : bool }.
Record DeleteResult := { deleted_count : Z; delete_acknowledged : bool }.

(** The calls the handlers make on a motor collection, indexed by what they
    return. A cursor built by [find] and refined by [sort], [skip] and
    [limit] reaches the store once, when it is iterated. *)
Module Motor.
Inductive call : Type -> Type :=
| find (database collection : pystr) (query : dict) (projection : pyobj)
    (sort : option (list (pystr * pyobj))) (skip limit : option Z) : call (list dict)
| find_one (database collection : pystr) (query : dict) (projection : pyobj)
    : call (option dict)
| count_documents (database collection : pystr) (query : dict) : call Z
| insert_one (database collection : pystr) (document : dict) : call InsertOneResult
| update_many (database collection : pystr) (query update : dict) (upsert : bool)
    : call UpdateResult
| delete_many (database collection : pystr) (query : dict) : call DeleteResult
| aggregate (database collection : pystr) (pipeline : list pyobj) : call (list dict)
| aggregate_to_list (database collection : pystr) (pipeline : list pyobj) (length : Z)
    : call (list dict)
| create_index (database collection : pystr) (keys : list (pystr * pyobj)) (kwargs : dict)
    : call pystr.
End Motor.

(** What a handler is seen to do, in order. *)
Inductive event : Type :=
| EvValidateQuery (query : pyobj)
| EvValidatePipeline (pipeline : list pyobj)
| EvSanitizeQuery (query : pyobj)
| EvSanitizeDocument (document : pyobj)
| EvStore (T : Type) (c : Motor.call T).
Arguments EvStore {T} c.

Definition trace := list event.

Definition is_store_event (ev : event) : bool :=
  match ev with
  | EvStore _ => true
  | _ => false
  end.

Definition store_events (tr : trace) : trace := filter is_store_event tr.

Definition M (A : Type) : Type := trace -> trace * result A.

Definition ret {A} (a : A) : M A := fun tr => (tr, OK a).

Definition raise {A} (e : exn) : M A := fun tr => (tr, Raise e).

Definition bind {A B} (m : M A) (k : A -> M B) : M B :=
  fun tr =>
    match m tr with
    | (tr', OK a) => k a tr'
    | (tr', Raise e) => (tr', Raise e)
    end.

(** [try: body except ... as e: handler e] *)
Definition try_except {A} (body : M A) (handler : exn -> M A) : M A :=
  fun tr =>
    match body tr with
    | (tr', Raise e) => handler e tr'
    | r => r
    end.

(** A call that leaves [ev] in the trace and then yields [r]. *)
Definition observe {A} (ev : event) (r : result A) : M A := fun tr => (tr ++ [ev], r).

Definition run {A} (m : M A) : trace * result A := m [].

Declare Scope handler_scope.
Delimit Scope handler_scope with handler.
Notation "x <- m ;; k" := (bind m (fun x => k))
  (at level 61, m at next level, right associativity) : handler_scope.
Notation "m ;; k" := (bind m (fun _ => k))
  (at level 61, right associativity) : handler_scope.

(** Python truthiness, for [if sort:] and [if result.upserted_id]. *)
Definition truthy (o : pyobj) : bool :=
  match o with
  | PyNone => false
  | PyBool b => b
  | PyInt z => negb (z =? 0)%Z
  | PyFloat bits => negb ((bits =? 0)%Z || (bits =? 2 ^ 63)%Z)
  | PyStr s => negb (Nat.eqb (List.length s) 0)
  | PyObjectId _ | PyDatetime _ => true
  | PyBytes data => negb (Nat.eqb (List.length data) 0)
  | PyList items => negb (Nat.eqb (List.length items) 0)
  | PyDict items => negb (Nat.eqb (List.length items) 0)
  end.

Section Handlers.
Local Open Scope handler_scope.

(** The driver: what the store answers to each call. *)
Variable store : forall T, Motor.call T -> result T.
(** [json.dumps(_, default=str)] and the builtin [str]. *)
Variable json_dumps : pyobj -> pystr.
Variable builtin_str : pyobj -> pystr.

Definition store_call {T} (c : Motor.call T) : M T := observe (EvStore c) (store T c).

Definition validate_query (query : pyobj) (allow_dangerous : bool) : M unit :=
  observe (EvValidateQuery query) (QueryValidator.validate_query query allow_dangerous).

Definition validate_pipeline (pipeline : list pyobj) (allow_dangerous : bool)
    (max_stages : Z) : M unit :=
  observe (EvValidatePipeline pipeline)
    (AggregationValidator.validate_pipeline pipeline allow_dangerous max_stages).

Definition sanitize_query (query : pyobj) : M dict :=
  observe (EvSanitizeQuery query) (InputSanitizer.sanitize_query query).

Definition sanitize_document (document : pyobj) : M dict :=
  observe (EvSanitizeDocument document) (InputSanitizer.sanitize_document json_dumps document).

(** [if '_id' in doc and isinstance(doc['_id'], ObjectId): doc['_id'] = str(doc['_id'])] *)
Definition convert_id (doc : dict) : dict :=
  match dict_get (py "_id") doc with
  | Some (PyObjectId hex) => dict_set (py "_id") (PyStr (builtin_str (PyObjectId hex))) doc
  | _ => doc
  end.

(** [except OperationFailure as e: raise RuntimeError(f"<prefix>{e}")] *)
Definition except_operation_failure {A} (prefix : pystr) (e : exn) : M A :=
  match e with
  | OperationFailure _ => raise (RuntimeError (prefix ++ str_of_exn e))
  | _ => raise e
  end.

(** [if query is None: query = {}] *)
Definition default_query (query : pyobj) : pyobj :=
  match query with
  | PyNone => PyDict []
  | _ => query
  end.

Definition positive (n : Z) : option Z := if (n >? 0)%Z then Some n else None.

Definition len {A} (l : list A) : Z := Z.of_nat (List.length l).

(** *** handlers/document.py *)

Definition find_documents (allow_dangerous : bool) (database_name collection_name : pystr)
    (query projection : pyobj) (sort : option dict) (limit skip : Z) : M pyobj :=
  let query := default_query query in
  try_except
    (validate_query query allow_dangerous ;;
     query <- sanitize_query query ;;
     documents <- store_call
       (Motor.find database_name collection_name query projection
          (match sort with
           | Some (item :: items) => Some (item :: items)
           | _ => None
           end)
          (positive skip) (positive limit)) ;;
     let documents := map convert_id documents in
     ret (PyDict [(py "documents", PyList (map PyDict documents));
                  (py "count", PyInt (len documents));
                  (py "hasMore", PyBool (len documents =? limit)%Z);
                  (py "query", PyDict query)]))
    (fun e =>
       match e with
       | OperationFailure _ => raise (RuntimeError (py "Query failed: " ++ str_of_exn e))
       | _ => raise (RuntimeError (py "Find operation failed: " ++ str_of_exn e))
       end).

Definition find_one_document (allow_dangerous : bool) (database_name collection_name : pystr)
    (query projection : pyobj) : M pyobj :=
  let query := default_query query in
  try_except
    (validate_query query allow_dangerous ;;
     query <- sanitize_query query ;;
     doc <- store_call (Motor.find_one database_name collection_name query projection) ;;
     ret (match doc with
          | Some doc => if truthy (PyDict doc) then PyDict (convert_id doc) else PyDict doc
          | None => PyNone
          end))
    (except_operation_failure (py "Find one failed: ")).

Definition count_documents (allow_dangerous : bool) (database_name collection_name : pystr)
    (query : pyobj) : M pyobj :=
  let query := default_query query in
  try_except
    (validate_query query allow_dangerous ;;
     query <- sanitize_query query ;;
     n <- store_call (Motor.count_documents database_name collection_name query) ;;
     ret (PyInt n))
    (except_operation_failure (py "Count failed: ")).

Definition insert_document (allow_dangerous : bool) (database_name collection_name : pystr)
    (document : pyobj) : M pyobj :=
  if negb allow_dangerous
  then raise (PermissionError (py "Write operations require dangerous mode"))
  else
    try_except
      (document <- sanitize_document document ;;
       result <- store_call (Motor.insert_one database_name collection_name document) ;;
       ret (PyDict [(py "insertedId", PyStr (builtin_str (inserted_id result)));
                    (py "acknowledged", PyBool (insert_acknowledged result))]))
      (except_operation_failure (py "Insert failed: ")).

Definition update_document (allow_dangerous : bool) (database_name collection_name : pystr)
    (query update : pyobj) (upsert : bool) : M pyobj :=
  if negb allow_dangerous
  then raise (PermissionError (py "Write operations require dangerous mode"))
  else
    try_except
      (validate_query query allow_dangerous ;;
       query <- sanitize_query query ;;
       update <- sanitize_document update ;;
       result <- store_call
         (Motor.update_many database_name collection_name query update upsert) ;;
       ret (PyDict [(py "matchedCount", PyInt (matched_count result));
                    (py "modifiedCount", PyInt (modified_count result));
                    (py "upsertedId",
                      if truthy (upserted_id result)
                      then PyStr (builtin_str (upserted_id result)) else PyNone);
                    (py "acknowledged", PyBool (update_acknowledged result))]))
      (except_operation_failure (py "Update failed: ")).

Definition delete_document (allow_dangerous : bool) (database_name collection_name : pystr)
    (query : pyobj) : M pyobj :=
  if negb allow_dangerous
  then raise (PermissionError (py "Write operations require dangerous mode"))
  else
    try_except
      (validate_query query allow_dangerous ;;
       query <- sanitize_query query ;;
       result <- store_call (Motor.delete_many database_name collection_name query) ;;
       ret (PyDict [(py "deletedCount", PyInt (deleted_count result));
                    (py "acknowledged", PyBool (delete_acknowledged result))]))
      (except_operation_failure (py "Delete failed: ")).

(** *** handlers/aggregation.py *)

(** [for stage in pipeline: sanitized_pipeline.append(InputSanitizer.sanitize_query(stage))] *)
Fixpoint sanitize_stages (pipeline : list pyobj) (sanitized_pipeline : list dict)
    : M (list dict) :=
  match pipeline with
  | [] => ret sanitized_pipeline
  | stage :: rest =>
      sanitized_stage <- sanitize_query stage ;;
      sanitize_stages rest (sanitized_pipeline ++ [sanitized_stage])
  end.

(** [any('$limit' in stage for stage in sanitized_pipeline)] *)
Definition has_limit (sanitized_pipeline : list dict) : bool :=
  existsb (dict_contains (py "$limit")) sanitized_pipeline.

Definition aggregate_pipeline (allow_dangerous : bool) (database_name collection_name : pystr)
    (pipeline : list pyobj) (limit max_stages : Z) : M pyobj :=
  try_except
    (validate_pipeline pipeline allow_dangerous max_stages ;;
     sanitized_pipeline <- sanitize_stages pipeline [] ;;
     let sanitized_pipeline :=
       if negb (has_limit sanitized_pipeline) && (limit >? 0)%Z
       then sanitized_pipeline ++ [[(py "$limit", PyInt limit)]]
       else sanitized_pipeline in
     results <- store_call
       (Motor.aggregate database_name collection_name (map PyDict sanitized_pipeline)) ;;
     let results := map convert_id results in
     ret (PyDict [(py "results", PyList (map PyDict results));
                  (py "count", PyInt (len results));
                  (py "pipeline", PyList (map PyDict sanitized_pipeline));
                  (py "hasMore", PyBool (len results =? limit)%Z)]))
    (fun e =>
       match e with
       | OperationFailure _ => raise (RuntimeError (py "Aggregation failed: " ++ str_of_exn e))
       | _ => raise (RuntimeError (py "Pipeline execution failed: " ++ str_of_exn e))
       end).

Definition explain_aggregation (allow_dangerous : bool)
    (database_name collection_name : pystr) (pipeline : list pyobj) : M pyobj :=
  try_except
    (validate_pipeline pipeline allow_dangerous 20 ;;
     let explain_pipeline :=
       pipeline ++ [PyDict [(py "$explain",
                             PyDict [(py "verbosity", PyStr (py "executionStats"))])]] in
     result <- store_call
       (Motor.aggregate_to_list database_name collection_name explain_pipeline 1) ;;
     ret (PyDict [(py "executionPlan",
                    match result with
                    | first :: _ => PyDict first
                    | [] => PyDict []
                    end);
                  (py "pipeline", PyList pipeline)]))
    (except_operation_failure (py "Explain failed: ")).

Definition create_index (allow_dangerous : bool) (database_name collection_name : pystr)
    (keys kwargs : dict) : M pyobj :=
  if negb allow_dangerous
  then raise (PermissionError (py "Index creation requires dangerous mode"))
  else
    try_except
      (index_name <- store_call
         (Motor.create_index database_name collection_name keys kwargs) ;;
       ret (PyDict [(py "indexName", PyStr index_name);
                    (py "keys", PyDict keys);
                    (py "options", PyDict kwargs)]))
      (except_operation_failure (py "Index creation failed: ")).

(** *** The tools of the server, one per operation *)

Inductive tool : Type :=
| ToolFindDocuments (database collection : pystr) (query projection : pyobj)
    (sort : option dict) (limit skip : Z)
| ToolFindOneDocument (database collection : pystr) (query projection : pyobj)
| ToolCountDocuments (database collection : pystr) (query : pyobj)
| ToolInsertDocument (database collection : pystr) (document : pyobj)
| ToolUpdateDocument (database collection : pystr) (query update : pyobj) (upsert : bool)
| ToolDeleteDocument (database collection : pystr) (query : pyobj)
| ToolAggregatePipeline (database collection : pystr) (pipeline : list pyobj)
    (limit max_stages : Z)
| ToolExplainAggregation (database collection : pystr) (pipeline : list pyobj)
| ToolCreateIndex (database collection : pystr) (keys kwargs : dict).

Definition call_tool (allow_dangerous : bool) (t : tool) : M pyobj :=
  match t with
  | ToolFindDocuments db coll query projection sort limit skip =>
      find_documents allow_dangerous db coll query projection sort limit skip
  | ToolFindOneDocument db coll query projection =>
      find_one_document allow_dangerous db coll query projection
  | ToolCountDocuments db coll query => count_documents allow_dangerous db coll query
  | ToolInsertDocument db coll document => insert_document allow_dangerous db coll document
  | ToolUpdateDocument db coll query update upsert =>
      update_document allow_dangerous db coll query update upsert
  | ToolDeleteDocument db coll query => delete_document allow_dangerous db coll query
  | ToolAggregatePipeline db coll pipeline limit max_stages =>
      aggregate_pipeline allow_dangerous db coll pipeline limit max_stages
  | ToolExplainAggregation db coll pipeline =>
      explain_aggregation allow_dangerous db coll pipeline
  | ToolCreateIndex db coll keys kwargs => create_index allow_dangerous db coll keys kwargs
  end.
End Handlers.

(** The operations that mutate state. *)
Definition is_write (t : tool) : bool :=
  match t with
  | ToolInsertDocument _ _ _ | ToolUpdateDocument _ _ _ _ _
  | ToolDeleteDocument _ _ _ | ToolCreateIndex _ _ _ _ => true
  | _ => false
  end.

(** ** security/validator.py: names of databases and collections *)

Module DocumentValidator.

Section Names.
(** [c.isalnum()] for one character, from Python's Unicode tables. *)
Variable char_isalnum : codepoint -> bool.

(** [s.isalnum()]: at least one character, and all of them alphanumeric. *)
Definition isalnum (s : pystr) : bool :=
  negb (Nat.eqb (List.length s) 0) && forallb char_isalnum s.

(** [s.replace(c, '')] for a one-character [c]. *)
Definition remove_char (c : codepoint) (s : pystr) : pystr :=
  filter (fun x => negb (x =? c)%N) s.

Definition validate_name (v : pystr) : result pystr :=
  if negb (isalnum (remove_char 45%N (remove_char 95%N v)))
  then Raise (ValueError (py "Names must be alphanumeric with underscores/hyphens"))
  else OK v.
End Names.

End DocumentValidator.

(** * Vocabulary of the properties *)

(** ** Induction over Python values *)

Section PyobjInduction.
Variable P : pyobj -> Prop.
Hypothesis Hnone : P PyNone.
Hypothesis Hbool : forall b, P (PyBool b).
Hypothesis Hint : forall z, P (PyInt z).
Hypothesis Hfloat : forall bits, P (PyFloat bits).
Hypothesis Hstr : forall s, P (PyStr s).
Hypothesis Hoid : forall hex, P (PyObjectId hex).
Hypothesis Hdate : forall ms, P (PyDatetime ms).
Hypothesis Hbytes : forall data, P (PyBytes data).
Hypothesis Hlist : forall items, Forall P items -> P (PyList items).
Hypothesis Hdict : forall items, Forall (fun kv => P (snd kv)) items -> P (PyDict items).

Fixpoint pyobj_ind (o : pyobj) : P o :=
  match o with
  | PyNone => Hnone
  | PyBool b => Hbool b
  | PyInt z => Hint z
  | PyFloat bits => Hfloat bits
  | PyStr s => Hstr s
  | PyObjectId hex => Hoid hex
  | PyDatetime ms => Hdate ms
  | PyBytes data => Hbytes data
  | PyList items =>
      Hlist items ((fix all (l : list pyobj) : Forall P l :=
                match l with
                | [] => Forall_nil _
                | x :: l' => Forall_cons x (pyobj_ind x) (all l')
                end) items)
  | PyDict items =>
      Hdict items ((fix all (l : list (pystr * pyobj)) : Forall (fun kv => P (snd kv)) l :=
                match l with
                | [] => Forall_nil _
                | kv :: l' => Forall_cons kv (pyobj_ind (snd kv)) (all l')
                end) items)
  end.
End PyobjInduction.

(** Induction that also reaches the elements of a sequence held as the value
    of a mapping, the one place where the sanitizer and the validator look
    inside a sequence. *)
Definition and_elements (P : pyobj -> Prop) (o : pyobj) : Prop :=
  P o /\ match o with
         | PyList elems => Forall P elems
         | _ => True
         end.

(** ** Strings and nesting depth *)

(** [clean s] is what [sanitize_string] returns for a string it accepts. *)
Definition clean (s : pystr) : pystr := InputSanitizer.strip (InputSanitizer.remove_control s).

Definition no_control (s : pystr) : Prop := Forall (fun c => InputSanitizer.is_control c = false) s.

(** A string that is empty or starts with a character [strip] keeps. *)
Definition head_kept (s : pystr) : Prop :=
  match s with
  | [] => True
  | c :: _ => InputSanitizer.is_space c = false
  end.

Definition within_limit (s : pystr) : bool :=
  negb (Z.of_nat (List.length s) >? InputSanitizer.MAX_STRING_LENGTH)%Z.

Definition length_error : exn :=
  ValueError (py "String exceeds maximum length " ++ str_of_int InputSanitizer.MAX_STRING_LENGTH).

(** The nesting depth of a structure: the root is at level 0, every value of
    a mapping and every element of a sequence is one level below its
    container, and the depth is the deepest level that holds a node. *)
Fixpoint depth (o : pyobj) : nat :=
  match o with
  | PyList [] => 0
  | PyList items => S (list_max (map depth items))
  | PyDict [] => 0
  | PyDict items => S (list_max (map (fun kv => depth (snd kv)) items))
  | _ => 0
  end.

(** [nest n leaf]: [leaf] wrapped in [n] one-key mappings. *)
Fixpoint nest (n : nat) (leaf : pyobj) : pyobj :=
  match n with
  | O => leaf
  | S n' => PyDict [(py "a", nest n' leaf)]
  end.

Definition depth_error : exn :=
  ValueError (py "Structure exceeds maximum depth " ++ str_of_int InputSanitizer.MAX_QUERY_DEPTH).

(** ** Rebuilt structures *)

(** What the sanitizer is to return for a value of a mapping: strings
    cleaned, mappings rebuilt key by key in their order, the elements of a
    sequence mapped one by one (a string cleaned, a mapping rebuilt, anything
    else, a nested sequence included, kept as it is), other values kept. *)
Fixpoint rebuilt (value : pyobj) : pyobj :=
  match value with
  | PyStr s => PyStr (clean s)
  | PyDict items => PyDict (map (fun '(k, v) => (clean k, rebuilt v)) items)
  | PyList elems =>
      PyList (map (fun item =>
                     match item with
                     | PyStr s => PyStr (clean s)
                     | PyDict _ => rebuilt item
                     | _ => item
                     end) elems)
  | _ => value
  end.

Definition rebuilt_items (items : dict) : dict :=
  map (fun '(k, v) => (clean k, rebuilt v)) items.

(** Every string the sanitizer looks at is within [MAX_STRING_LENGTH]. *)
Fixpoint strings_within_limit (value : pyobj) : bool :=
  match value with
  | PyStr s => within_limit s
  | PyDict items =>
      forallb (fun '(k, v) => within_limit k && strings_within_limit v) items
  | PyList elems =>
      forallb (fun item =>
                 match item with
                 | PyStr s => within_limit s
                 | PyDict _ => strings_within_limit item
                 | _ => true
                 end) elems
  | _ => true
  end.

Fixpoint distinct (keys : list pystr) : bool :=
  match keys with
  | [] => true
  | k :: rest => negb (str_in k rest) && distinct rest
  end.

(** No two keys of a mapping the sanitizer rebuilds are cleaned to the same
    string. *)
Fixpoint clean_keys_distinct (value : pyobj) : bool :=
  match value with
  | PyDict items =>
      distinct (map (fun kv => clean (fst kv)) items)
      && forallb (fun '(_, v) => clean_keys_distinct v) items
  | PyList elems =>
      forallb (fun item =>
                 match item with
                 | PyDict _ => clean_keys_distinct item
                 | _ => true
                 end) elems
  | _ => true
  end.

(** The branch of [_sanitize_dict] on the type of a value. *)
Definition sanitize_value (value : pyobj) : result pyobj :=
  match value with
  | PyStr _ => let* s := InputSanitizer.sanitize_string value in OK (PyStr s)
  | PyDict _ => let* d := InputSanitizer._sanitize_dict value in OK (PyDict d)
  | PyList elems =>
      let* l :=
        comprehension (InputSanitizer.sanitize_item InputSanitizer._sanitize_dict) elems in
      OK (PyList l)
  | _ => OK value
  end.

Definition rebuilds (o : pyobj) : Prop :=
  match o with
  | PyDict items =>
      clean_keys_distinct o = true ->
      InputSanitizer._sanitize_dict o =
      if strings_within_limit o then OK (rebuilt_items items) else Raise length_error
  | _ => True
  end.

(** ** Keys of a query and names of stages *)

(** [a] holds [b]: [b] is [a] or lies inside it, at any nesting position. *)
Inductive holds : pyobj -> pyobj -> Prop :=
| holds_self o : holds o o
| holds_element items x o : In x items -> holds x o -> holds (PyList items) o
| holds_value items key value o : In (key, value) items -> holds value o -> holds (PyDict items) o.

(** A query contains the key [k]: some mapping inside it has that key. *)
Definition contains_key (query : pyobj) (k : pystr) : Prop :=
  exists items, holds query (PyDict items) /\ In k (dict_keys items).

(** The mappings the validator inspects: the query itself, a mapping that is
    the value of a key of an inspected mapping, and a mapping that is a
    direct element of a sequence that is such a value. *)
Inductive reaches : dict -> dict -> Prop :=
| reaches_self d : reaches d d
| reaches_value d key d' d'' :
    In (key, PyDict d') d -> reaches d' d'' -> reaches d d''
| reaches_element d key elems d' d'' :
    In (key, PyList elems) d -> In (PyDict d') elems -> reaches d' d'' -> reaches d d''.

(** [k] is a key of a mapping the validator inspects. *)
Definition inspects (d : dict) (k : pystr) : Prop :=
  exists d', reaches d d' /\ In k (dict_keys d').

Definition is_operator (k : pystr) : bool := startswith (py "$") k.

(** The name of a stage: [next(iter(stage.keys()))]. *)
Definition stage_name (stage : pyobj) : option pystr :=
  match stage with
  | PyDict ((name, _) :: _) => Some name
  | _ => None
  end.

Definition listed (name : pystr) (allow_dangerous : bool) : Prop :=
  In name AggregationValidator.SAFE_STAGES
  \/ (In name AggregationValidator.DANGEROUS_STAGES /\ allow_dangerous = true).

(** ** The gateway of an operation *)

(** The exception classes the gateway raises by itself. *)
Definition gateway_class (e : exn) : Prop :=
  match e with
  | ValueError _ | PermissionError _ | AttributeError _ => True
  | _ => False
  end.

(** [if not self.allow_dangerous: raise PermissionError(msg)] *)
Definition require_dangerous (allow_dangerous : bool) (msg : pystr) : result unit :=
  if negb allow_dangerous then Raise (PermissionError msg) else OK tt.

(** The checks an operation makes before it reaches the store, in the order
    its handler makes them: the dangerous-mode gate, the validator, the
    sanitizer. [gateway] raises what the first failing check raises. *)
Definition gateway (json_dumps : pyobj -> pystr) (allow_dangerous : bool) (t : tool)
    : result unit :=
  match t with
  | ToolFindDocuments _ _ query _ _ _ _
  | ToolFindOneDocument _ _ query _
  | ToolCountDocuments _ _ query =>
      QueryValidator.validate_query (default_query query) allow_dangerous ;;;
      InputSanitizer.sanitize_query (default_query query) ;;; OK tt
  | ToolInsertDocument _ _ document =>
      require_dangerous allow_dangerous (py "Write operations require dangerous mode") ;;;
      InputSanitizer.sanitize_document json_dumps document ;;; OK tt
  | ToolUpdateDocument _ _ query update _ =>
      require_dangerous allow_dangerous (py "Write operations require dangerous mode") ;;;
      QueryValidator.validate_query query allow_dangerous ;;;
      InputSanitizer.sanitize_query query ;;;
      InputSanitizer.sanitize_document json_dumps update ;;; OK tt
  | ToolDeleteDocument _ _ query =>
      require_dangerous allow_dangerous (py "Write operations require dangerous mode") ;;;
      QueryValidator.validate_query query allow_dangerous ;;;
      InputSanitizer.sanitize_query query ;;; OK tt
  | ToolAggregatePipeline _ _ pipeline _ max_stages =>
      AggregationValidator.validate_pipeline pipeline allow_dangerous max_stages ;;;
      comprehension InputSanitizer.sanitize_query pipeline ;;; OK tt
  | ToolExplainAggregation _ _ pipeline =>
      AggregationValidator.validate_pipeline pipeline allow_dangerous 20
  | ToolCreateIndex _ _ _ _ =>
      require_dangerous allow_dangerous (py "Index creation requires dangerous mode")
  end.

(** The handlers whose [try] ends in [except Exception]. *)
Definition catches_all (t : tool) : option pystr :=
  match t with
  | ToolFindDocuments _ _ _ _ _ _ _ => Some (py "Find operation failed: ")
  | ToolAggregatePipeline _ _ _ _ _ => Some (py "Pipeline execution failed: ")
  | _ => None
  end.

(** What the caller receives when the gateway raised [e]. *)
Definition reported (t : tool) (e : exn) : exn :=
  match catches_all t with
  | Some prefix => RuntimeError (prefix ++ str_of_exn e)
  | None => e
  end.

(** ** Dispatched pipelines *)

(** A stage of the pipeline has the key [$limit]. *)
Definition pipeline_has_limit (pipeline : list pyobj) : bool :=
  existsb (fun stage =>
             match stage with
             | PyDict items => dict_contains (py "$limit") items
             | _ => false
             end) pipeline.

(** [{'$limit': limit}] *)
Definition limit_stage (limit : Z) : dict := [(py "$limit", PyInt limit)].

Definition count_limit_stages (pipeline : list dict) : nat :=
  List.length (filter (dict_contains (py "$limit")) pipeline).

(** The trace of an aggregation that reached the store with [dispatched]. *)
Definition aggregation_trace (database collection : pystr) (pipeline : list pyobj)
    (dispatched : list dict) : trace :=
  EvValidatePipeline pipeline
    :: map EvSanitizeQuery pipeline
    ++ [EvStore (Motor.aggregate database collection (map PyDict dispatched))].

(** ** Sample inputs *)

(** A store that holds nothing and acknowledges every write, and stand-ins
    for [json.dumps] and [str], to run the handlers on concrete inputs. *)
Definition empty_store (T : Type) (c : Motor.call T) : result T :=
  match c in Motor.call T return result T with
  | Motor.find _ _ _ _ _ _ _ => OK []
  | Motor.find_one _ _ _ _ => OK None
  | Motor.count_documents _ _ _ => OK 0%Z
  | Motor.insert_one _ _ _ =>
      OK {| inserted_id := PyObjectId (py "65f0c0ffee65f0c0ffee0001");
            insert_acknowledged := true |}
  | Motor.update_many _ _ _ _ _ =>
      OK {| matched_count := 0; modified_count := 0; upserted_id := PyNone;
            update_acknowledged := true |}
  | Motor.delete_many _ _ _ => OK {| deleted_count := 0; delete_acknowledged := true |}
  | Motor.aggregate _ _ _ => OK []
  | Motor.aggregate_to_list _ _ _ _ => OK []
  | Motor.create_index _ _ _ _ => OK (py "a_1")
  end.

Definition sample_json_dumps (o : pyobj) : pystr := py "{}".

Definition sample_str (o : pyobj) : pystr :=
  match o with
  | PyObjectId hex => hex
  | PyStr s => s
  | PyInt z => str_of_int z
  | _ => py "None"
  end.

Definition find_custom : tool :=
  ToolFindDocuments (py "shop") (py "orders") (PyDict [(py "$custom", PyInt 1)])
    PyNone None 100 0.

(** [{"tags": [[{"$where": "1"}]]}]: a dangerous operator inside a sequence
    that is itself an element of a sequence. *)
Definition nested_where : dict :=
  [(py "tags", PyList [PyList [PyDict [(py "$where", PyStr (py "1"))]]])].

(** [{"$where": "1", "$custom": 1}] *)
Definition where_and_custom : dict :=
  [(py "$where", PyStr (py "1")); (py "$custom", PyInt 1)].

(** [{"$or": [{"age": {"$gt": 18}}, {"$where": "1"}]}] *)
Definition or_where : dict :=
  [(py "$or", PyList [PyDict [(py "age", PyDict [(py "$gt", PyInt 18)])];
                      PyDict [(py "$where", PyStr (py "1"))]])].

(** [{"tags": [[{"$custom": 1}]]}] *)
Definition nested_custom : dict :=
  [(py "tags", PyList [PyList [PyDict [(py "$custom", PyInt 1)]]])].

(** [{"age": {"$custom": 1}}] *)
Definition age_custom : dict := [(py "age", PyDict [(py "$custom", PyInt 1)])].

(** [[{"$match": {"status": "active"}}, {"$custom": 1}]] *)
Definition match_then_custom : list pyobj :=
  [PyDict [(py "$match", PyDict [(py "status", PyStr (py "active"))])];
   PyDict [(py "$custom", PyInt 1)]].

(** [{"tags": [[" x"]]}]: a string inside a sequence that is itself an
    element of a sequence. *)
Definition nested_strings : dict :=
  [(py "tags", PyList [PyList [PyStr (py " x")]])].

(** [{"a": 1, " a": 2}]: two keys that are cleaned to the same string. *)
Definition colliding_keys : dict := [(py "a", PyInt 1); (py " a", PyInt 2)].

(** [{" name ": "Ann\x00 ", "tags": [" a ", {"k ": 1}, [" x"]], "n": 5}] *)
Definition untidy : dict :=
  [(py " name ", PyStr (py "Ann" ++ [0%N; 32%N]));
   (py "tags", PyList [PyStr (py " a "); PyDict [(py "k ", PyInt 1)]; PyList [PyStr (py " x")]]);
   (py "n", PyInt 5)].

(** [[{"$match": {"status": "active"}}]] *)
Definition match_active : list pyobj :=
  [PyDict [(py "$match", PyDict [(py "status", PyStr (py "active"))])]].

Definition match_active_sanitized : list dict :=
  [[(py "$match", PyDict [(py "status", PyStr (py "active"))])]].

(** ** Clean strings and scalars *)

(** [clean] leaves the string as it is. *)
Definition is_clean (s : pystr) : bool := str_eqb (clean s) s.

(** Every string the sanitizer looks at is left as it is by [clean]. *)
Fixpoint strings_clean (value : pyobj) : bool :=
  match value with
  | PyStr s => is_clean s
  | PyDict items => forallb (fun '(k, v) => is_clean k && strings_clean v) items
  | PyList elems =>
      forallb (fun item =>
                 match item with
                 | PyStr s => is_clean s
                 | PyDict _ => strings_clean item
                 | _ => true
                 end) elems
  | _ => true
  end.

(** A value that is neither a string nor a container. *)
Definition is_scalar (value : pyobj) : bool :=
  match value with
  | PyStr _ | PyList _ | PyDict _ => false
  | _ => true
  end.

(** ** Further sample inputs *)

(** [{"age": {"$gt": 18}, "tags": ["a", {"k": 1}]}] *)
Definition tidy : dict :=
  [(py "age", PyDict [(py "$gt", PyInt 18)]);
   (py "tags", PyList [PyStr (py "a"); PyDict [(py "k", PyInt 1)]])].

(** What [_sanitize_dict] makes of [untidy]:
    [{"name": "Ann", "tags": ["a", {"k": 1}, [" x"]], "n": 5}] *)
Definition tidied : dict :=
  [(py "name", PyStr (py "Ann"));
   (py "tags", PyList [PyStr (py "a"); PyDict [(py "k", PyInt 1)]; PyList [PyStr (py " x")]]);
   (py "n", PyInt 5)].

(** The one-key stage [{name: body}]. *)
Definition stage_of (stage : pystr * pyobj) : pyobj := PyDict [stage].

(** [[{"$match": {"$where": "1"}}]] *)
Definition match_where : list (pystr * pyobj) :=
  [(py "$match", PyDict [(py "$where", PyStr (py "1"))])].

(** [[{"$match": {"status": "active"}}, {"$out": "archive"}]] *)
Definition match_then_out : list pyobj :=
  [PyDict [(py "$match", PyDict [(py "status", PyStr (py "active"))])];
   PyDict [(py "$out", PyStr (py "archive"))]].

(** [if sort: cursor.sort(list(sort.items()))]: the sort handed to the
    cursor, if any. *)
Definition applied_sort (sort : option dict) : option (list (pystr * pyobj)) :=
  match sort with
  | Some (item :: items) => Some (item :: items)
  | _ => None
  end.

(** The trace of a [find_documents] that reached the store with [query']. *)
Definition find_trace (database collection : pystr) (query projection : pyobj)
    (sort : option dict) (limit skip : Z) (query' : dict) : trace :=
  [EvValidateQuery (default_query query);
   EvSanitizeQuery (default_query query);
   EvStore (Motor.find database collection query' projection (applied_sort sort)
              (positive skip) (positive limit))].

(** [{'$explain': {'verbosity': 'executionStats'}}] *)
Definition explain_stage : pyobj :=
  PyDict [(py "$explain", PyDict [(py "verbosity", PyStr (py "executionStats"))])].

(** ** The sanitized form of a structure *)

(** [assigned entries d]: the mapping [d] after [d[key] = value] for each of
    [entries] in turn. *)
Definition assigned (entries : list (pystr * pyobj)) (d : dict) : dict :=
  fold_left (fun acc kv => dict_set (fst kv) (snd kv) acc) entries d.

(** The sanitized form of a value of a mapping: strings cleaned, the elements
    of a sequence mapped one by one (a string cleaned, a mapping sanitized,
    anything else, a nested sequence included, kept as it is), other values
    kept, and a mapping built by assigning, entry after entry, the sanitized
    value under the cleaned key. It is [rebuilt] when no two keys of a
    mapping are cleaned to the same string. *)
Fixpoint sanitized_form (value : pyobj) : pyobj :=
  match value with
  | PyStr s => PyStr (clean s)
  | PyDict items =>
      PyDict (assigned (map (fun '(k, v) => (clean k, sanitized_form v)) items) [])
  | PyList elems =>
      PyList (map (fun item =>
                     match item with
                     | PyStr s => PyStr (clean s)
                     | PyDict _ => sanitized_form item
                     | _ => item
                     end) elems)
  | _ => value
  end.

Definition sanitized_items (items : dict) : dict :=
  assigned (map (fun '(k, v) => (clean k, sanitized_form v)) items) [].

(** What [_sanitize_dict] does on a mapping, whatever its keys. *)
Definition sanitizes (o : pyobj) : Prop :=
  match o with
  | PyDict items =>
      InputSanitizer._sanitize_dict o =
      if strings_within_limit o then OK (sanitized_items items) else Raise length_error
  | _ => True
  end.

(** [{"a": " x", " a": " y"}]: colliding keys with strings to clean. *)
Definition colliding_strings : dict :=
  [(py "a", PyStr (py " x")); (py " a", PyStr (py " y"))].

(** [{"a": <eleven mappings around 1>, " a": 1}] *)
Definition colliding_deep : dict := [(py "a", nest 11 (PyInt 1)); (py " a", PyInt 1)].

(** * Properties *)

(** ** Strings *)

Lemma str_eqb_eq a b : str_eqb a b = true <-> a = b.
Proof.
  unfold str_eqb. destruct (list_eq_dec N.eq_dec a b); split; congruence.
Qed.

Lemma str_eqb_refl a : str_eqb a a = true.
Proof. now apply str_eqb_eq. Qed.

Lemma str_in_In k set : str_in k set = true <-> In k set.
Proof.
  unfold str_in. rewrite existsb_exists. split.
  - intros (x & Hx & E). apply str_eqb_eq in E. now subst.
  - intros H. exists k. split; [assumption | apply str_eqb_refl].
Qed.

Lemma str_in_not_In k set : str_in k set = false <-> ~ In k set.
Proof.
  rewrite <- str_in_In. destruct (str_in k set); split; congruence.
Qed.

Module SanitizerFacts.
Import InputSanitizer.

Lemma lstrip_head_kept s : head_kept (lstrip s).
Proof.
  induction s as [|c s IH]; simpl; [exact I|].
  destruct (is_space c) eqn:E; [exact IH | exact E].
Qed.

Lemma lstrip_fixed s : head_kept s -> lstrip s = s.
Proof.
  destruct s as [|c s]; simpl; [reflexivity|]. now intros ->.
Qed.

Lemma lstrip_snoc_kept s c : is_space c = false -> lstrip (s ++ [c]) = lstrip s ++ [c].
Proof.
  intros Hc. induction s as [|a s IH]; simpl.
  - now rewrite Hc.
  - destruct (is_space a); [exact IH | reflexivity].
Qed.

Lemma rstrip_cons_kept c s : is_space c = false -> rstrip (c :: s) = c :: rstrip s.
Proof.
  intros Hc. unfold rstrip. simpl.
  rewrite lstrip_snoc_kept by assumption.
  now rewrite rev_app_distr.
Qed.

Lemma rstrip_head_kept s : head_kept s -> head_kept (rstrip s).
Proof.
  destruct s as [|c s]; [intros _; exact I|].
  simpl. intros Hc. rewrite rstrip_cons_kept by assumption. exact Hc.
Qed.

Lemma rstrip_idem s : rstrip (rstrip s) = rstrip s.
Proof.
  unfold rstrip. rewrite rev_involutive.
  now rewrite (lstrip_fixed _ (lstrip_head_kept (rev s))).
Qed.

Lemma strip_idem s : strip (strip s) = strip s.
Proof.
  unfold strip.
  rewrite (lstrip_fixed _ (rstrip_head_kept _ (lstrip_head_kept s))).
  apply rstrip_idem.
Qed.

Lemma lstrip_length s : (List.length (lstrip s) <= List.length s)%nat.
Proof.
  induction s as [|c s IH]; simpl; [lia|].
  destruct (is_space c); simpl; lia.
Qed.

Lemma strip_length s : (List.length (strip s) <= List.length s)%nat.
Proof.
  unfold strip, rstrip. rewrite length_rev.
  etransitivity; [apply lstrip_length|]. rewrite length_rev. apply lstrip_length.
Qed.

Lemma remove_control_length s : (List.length (remove_control s) <= List.length s)%nat.
Proof. apply filter_length_le. Qed.

Lemma lstrip_no_control s : no_control s -> no_control (lstrip s).
Proof.
  unfold no_control. induction 1 as [|c s Hc Hs IH]; simpl; [constructor|].
  destruct (is_space c); [exact IH | now constructor].
Qed.

Lemma strip_no_control s : no_control s -> no_control (strip s).
Proof.
  intros H. unfold strip, rstrip.
  apply Forall_rev, lstrip_no_control, Forall_rev, lstrip_no_control, H.
Qed.

Lemma remove_control_no_control s : no_control (remove_control s).
Proof.
  unfold no_control, remove_control. apply Forall_forall.
  intros c Hc. apply filter_In in Hc. destruct Hc as [_ Hc].
  now apply negb_true_iff in Hc.
Qed.

Lemma remove_control_fixed s : no_control s -> remove_control s = s.
Proof.
  unfold no_control, remove_control. induction 1 as [|c s Hc Hs IH]; simpl; [reflexivity|].
  rewrite Hc. simpl. now rewrite IH.
Qed.

Lemma clean_idem s : clean (clean s) = clean s.
Proof.
  unfold clean.
  rewrite (remove_control_fixed _ (strip_no_control _ (remove_control_no_control s))).
  apply strip_idem.
Qed.

Lemma clean_length s : (List.length (clean s) <= List.length s)%nat.
Proof.
  unfold clean. etransitivity; [apply strip_length | apply remove_control_length].
Qed.

Lemma sanitize_string_str s :
  sanitize_string (PyStr s) =
  if within_limit s then OK (clean s)
  else Raise (ValueError (py "String exceeds maximum length " ++ str_of_int MAX_STRING_LENGTH)).
Proof.
  unfold sanitize_string, within_limit, clean.
  now destruct (Z.of_nat (List.length s) >? MAX_STRING_LENGTH)%Z.
Qed.

Lemma within_limit_clean s : within_limit s = true -> within_limit (clean s) = true.
Proof.
  unfold within_limit. rewrite !negb_true_iff. intros H.
  pose proof (clean_length s). unfold MAX_STRING_LENGTH in *. lia.
Qed.

End SanitizerFacts.

(** C8. [sanitize_string] is idempotent: whenever it accepts a value and
    returns [t], applying it to [t] again returns [t] unchanged. *)
Theorem sanitize_string_idempotent (value : pyobj) (t : pystr) :
  InputSanitizer.sanitize_string value = OK t ->
  InputSanitizer.sanitize_string (PyStr t) = OK t.
Proof.
  destruct value as [| | | |s| | | | |]; try discriminate.
  rewrite !SanitizerFacts.sanitize_string_str.
  destruct (within_limit s) eqn:L; [|discriminate].
  intros [= <-].
  rewrite (SanitizerFacts.within_limit_clean _ L).
  now rewrite SanitizerFacts.clean_idem.
Qed.

Lemma sanitize_string_idempotent_witness :
  InputSanitizer.sanitize_string (PyStr (py "  a b  ")) = OK (py "a b")
  /\ InputSanitizer.sanitize_string (PyStr (py "a b")) = OK (py "a b").
Proof.
  split; [reflexivity|].
  apply (sanitize_string_idempotent (PyStr (py "  a b  ")) (py "a b")).
  reflexivity.
Defined.

(** ** Loops *)

(** Turns the boolean comparisons of the context into propositions. *)
Ltac zbool :=
  repeat match goal with
    | H : (_ <=? _)%Z = true |- _ => apply Z.leb_le in H
    | H : (_ <=? _)%Z = false |- _ => apply Z.leb_gt in H
    | H : (_ >? _)%Z = true |- _ => apply Z.gtb_lt in H
    | H : (_ >? _)%Z = false |- _ => rewrite Z.gtb_ltb in H; apply Z.ltb_ge in H
    | H : (_ =? _)%Z = true |- _ => apply Z.eqb_eq in H
    | H : (_ =? _)%Z = false |- _ => apply Z.eqb_neq in H
    end.

Lemma for_each_ok_iff {A} (body : A -> result unit) l :
  for_each body l = OK tt <-> Forall (fun x => body x = OK tt) l.
Proof.
  induction l as [|x l IH]; simpl.
  - split; [constructor | reflexivity].
  - destruct (body x) as [[]|e] eqn:E; simpl.
    + rewrite IH. split; [now constructor | now inversion 1].
    + split; [discriminate | inversion 1; congruence].
Qed.

Lemma for_each_raise {A} (body : A -> result unit) l e :
  for_each body l = Raise e -> exists x, In x l /\ body x = Raise e.
Proof.
  induction l as [|x l IH]; simpl; [discriminate|].
  destruct (body x) as [[]|e'] eqn:E; simpl.
  - intros H. destruct (IH H) as (y & Hy & Ey). exists y. auto.
  - intros [= ->]. exists x. auto.
Qed.

Lemma for_each_decide {A} (body : A -> result unit) (ok : A -> bool) (err : exn) l :
  Forall (fun x => body x = if ok x then OK tt else Raise err) l ->
  for_each body l = if forallb ok l then OK tt else Raise err.
Proof.
  induction 1 as [|x l Hx Hl IH]; simpl; [reflexivity|].
  rewrite Hx. destruct (ok x); simpl; [exact IH | reflexivity].
Qed.

Lemma forallb_bound_max {A} (f : A -> nat) (b : Z) l :
  l <> [] ->
  forallb (fun x => (b + Z.of_nat (f x) <=? 10)%Z) l
  = (b + Z.of_nat (list_max (map f l)) <=? 10)%Z.
Proof.
  induction l as [|x l IH]; [congruence|]. intros _.
  destruct l as [|y l].
  - simpl. rewrite andb_true_r, Nat.max_0_r. reflexivity.
  - change (forallb _ (x :: y :: l))
      with ((b + Z.of_nat (f x) <=? 10)%Z && forallb (fun x => (b + Z.of_nat (f x) <=? 10)%Z) (y :: l)).
    rewrite IH by congruence.
    change (list_max (map f (x :: y :: l))) with (Nat.max (f x) (list_max (map f (y :: l)))).
    destruct (b + Z.of_nat (f x) <=? 10)%Z eqn:E1;
      destruct (b + Z.of_nat (list_max (map f (y :: l))) <=? 10)%Z eqn:E2;
      destruct (b + Z.of_nat (Nat.max (f x) (list_max (map f (y :: l)))) <=? 10)%Z eqn:E3;
      simpl; try reflexivity; zbool; lia.
Qed.

Lemma for_each_acc_raise {A S} (body : S -> A -> result S) l acc e :
  for_each_acc body l acc = Raise e -> exists x acc', In x l /\ body acc' x = Raise e.
Proof.
  revert acc. induction l as [|x l IH]; simpl; intros acc; [discriminate|].
  destruct (body acc x) as [acc'|e'] eqn:E; simpl.
  - intros H. destruct (IH _ H) as (y & a & Hy & Ey). exists y, a. auto.
  - intros [= ->]. exists x, acc. auto.
Qed.

Lemma comprehension_raise {A B} (f : A -> result B) l e :
  comprehension f l = Raise e -> exists x, In x l /\ f x = Raise e.
Proof.
  induction l as [|x l IH]; simpl; [discriminate|].
  destruct (f x) as [y|e'] eqn:E; simpl.
  - destruct (comprehension f l) as [ys|e''] eqn:E'; simpl; [discriminate|].
    intros [= ->]. destruct (IH eq_refl) as (z & Hz & Ez). exists z. auto.
  - intros [= ->]. exists x. auto.
Qed.

Lemma for_each_acc_ext {A S} (body body' : S -> A -> result S) l :
  (forall acc x, body acc x = body' acc x) ->
  forall acc, for_each_acc body l acc = for_each_acc body' l acc.
Proof.
  intros Hext. induction l as [|x l IH]; intros acc; simpl; [reflexivity|].
  rewrite Hext. destruct (body' acc x); simpl; [apply IH | reflexivity].
Qed.

Lemma for_each_acc_cons {A S} (body : S -> A -> result S) x l acc :
  for_each_acc body (x :: l) acc = let* acc' := body acc x in for_each_acc body l acc'.
Proof. reflexivity. Qed.

Lemma comprehension_decide {A B} (f : A -> result B) (ok : A -> bool) (g : A -> B) err l :
  Forall (fun x => f x = if ok x then OK (g x) else Raise err) l ->
  comprehension f l = if forallb ok l then OK (map g l) else Raise err.
Proof.
  induction 1 as [|x l Hx Hl IH]; simpl; [reflexivity|].
  rewrite Hx. destruct (ok x); simpl; [|reflexivity].
  rewrite IH. destruct (forallb ok l); reflexivity.
Qed.

(** ** Dictionaries *)

Lemma distinct_NoDup keys : distinct keys = true <-> NoDup keys.
Proof.
  induction keys as [|k keys IH]; simpl.
  - split; [constructor | reflexivity].
  - rewrite andb_true_iff, negb_true_iff, str_in_not_In, IH.
    split; [intros [? ?]; now constructor | now inversion 1].
Qed.

Lemma dict_set_fresh key value d :
  ~ In key (dict_keys d) -> dict_set key value d = d ++ [(key, value)].
Proof.
  induction d as [|[k v] d IH]; simpl; [reflexivity|].
  intros Hfresh. destruct (str_eqb k key) eqn:E.
  - apply str_eqb_eq in E. tauto.
  - rewrite IH by tauto. reflexivity.
Qed.

(** ** Induction to the elements of sequence values *)

Lemma pyobj_ind_elements (P : pyobj -> Prop) :
  (forall o, (forall items, o <> PyList items) -> (forall items, o <> PyDict items) -> P o) ->
  (forall items, Forall P items -> P (PyList items)) ->
  (forall items, Forall (fun kv => and_elements P (snd kv)) items -> P (PyDict items)) ->
  forall o, P o.
Proof.
  intros Hatom Hlist Hdict o.
  enough (H : and_elements P o) by apply H.
  induction o as [| | | | | | | |items IH|items IH] using pyobj_ind;
    try (split; [apply Hatom; intros; discriminate | exact I]).
  - assert (Hall : Forall P items).
    { eapply Forall_impl; [|exact IH]. intros a [Ha _]. exact Ha. }
    split; [apply Hlist; exact Hall | exact Hall].
  - split; [apply Hdict; exact IH | exact I].
Qed.

(** ** Nesting depth *)

Module DepthFacts.
Import InputSanitizer.

Lemma check_depth_unfold obj c :
  _check_depth obj c =
  if (c >? MAX_QUERY_DEPTH)%Z then Raise depth_error
  else
    match obj with
    | PyDict items => for_each (fun '(_, value) => _check_depth value (c + 1)) items
    | PyList items => for_each (fun item => _check_depth item (c + 1)) items
    | _ => OK tt
    end.
Proof. destruct obj; reflexivity. Qed.

(** What [_check_depth] computes, in terms of [depth]. *)
Lemma check_depth_spec obj :
  forall c : Z,
    _check_depth obj c =
    if (c + Z.of_nat (depth obj) <=? 10)%Z then OK tt else Raise depth_error.
Proof.
  induction obj as [| | | | | | | |items IH|items IH] using pyobj_ind; intros c;
    rewrite check_depth_unfold; unfold MAX_QUERY_DEPTH;
    try (simpl; destruct (c >? 10)%Z eqn:E; destruct (c + 0 <=? 10)%Z eqn:E';
         (reflexivity || (zbool; lia))).
  - (* sequences *)
    destruct (c >? 10)%Z eqn:E.
    { destruct (c + Z.of_nat (depth (PyList items)) <=? 10)%Z eqn:E'; [zbool; lia | reflexivity]. }
    destruct items as [|x items].
    { simpl. destruct (c + 0 <=? 10)%Z eqn:E'; [reflexivity | zbool; lia]. }
    rewrite (for_each_decide _ (fun item => (c + 1 + Z.of_nat (depth item) <=? 10)%Z) depth_error).
    + rewrite forallb_bound_max by congruence.
      change (depth (PyList (x :: items))) with (S (list_max (map depth (x :: items)))).
      rewrite Nat2Z.inj_succ.
      replace (c + Z.succ (Z.of_nat (list_max (map depth (x :: items)))))%Z
        with (c + 1 + Z.of_nat (list_max (map depth (x :: items))))%Z by lia.
      reflexivity.
    + eapply Forall_impl; [|exact IH]. intros a Ha. apply Ha.
  - (* mappings *)
    destruct (c >? 10)%Z eqn:E.
    { destruct (c + Z.of_nat (depth (PyDict items)) <=? 10)%Z eqn:E'; [zbool; lia | reflexivity]. }
    destruct items as [|x items].
    { simpl. destruct (c + 0 <=? 10)%Z eqn:E'; [reflexivity | zbool; lia]. }
    rewrite (for_each_decide _ (fun kv => (c + 1 + Z.of_nat (depth (snd kv)) <=? 10)%Z)
               depth_error).
    + rewrite (forallb_bound_max (fun kv => depth (snd kv))) by congruence.
      change (depth (PyDict (x :: items)))
        with (S (list_max (map (fun kv => depth (snd kv)) (x :: items)))).
      rewrite Nat2Z.inj_succ.
      replace (c + Z.succ (Z.of_nat (list_max (map (fun kv => depth (snd kv)) (x :: items)))))%Z
        with (c + 1 + Z.of_nat (list_max (map (fun kv => depth (snd kv)) (x :: items))))%Z
        by lia.
      reflexivity.
    + eapply Forall_impl; [|exact IH]. intros [k v] Ha. apply Ha.
Qed.

End DepthFacts.

(** C7. For a structure of nesting depth [d], [_check_depth] started at
    level 0 succeeds if and only if [d <= 10]; with [d = 11], and with any
    larger depth, it fails with the depth-exceeded error. *)
Theorem check_depth_iff_depth_le_10 (obj : pyobj) :
  (InputSanitizer._check_depth obj 0 = OK tt <-> (depth obj <= 10)%nat)
  /\ ((depth obj = 11)%nat ->
      InputSanitizer._check_depth obj 0 = Raise depth_error)
  /\ ((depth obj > 10)%nat ->
      InputSanitizer._check_depth obj 0 = Raise depth_error).
Proof.
  rewrite DepthFacts.check_depth_spec.
  destruct (0 + Z.of_nat (depth obj) <=? 10)%Z eqn:E.
  - zbool. split; [split; [lia | reflexivity]|]. split; intros; lia.
  - zbool. split; [split; [discriminate | lia]|]. split; reflexivity.
Qed.

(** Eleven mappings around a scalar have depth 11 and are refused; ten are
    accepted. *)
Example check_depth_nest_11 :
  depth (nest 11 (PyInt 1)) = 11%nat
  /\ InputSanitizer._check_depth (nest 11 (PyInt 1)) 0 = Raise depth_error
  /\ depth (nest 10 (PyInt 1)) = 10%nat
  /\ InputSanitizer._check_depth (nest 10 (PyInt 1)) 0 = OK tt.
Proof. repeat split; reflexivity. Qed.

(** ** The dangerous-mode gate *)

(** C1. With [dangerous_mode = false], each of [insert_document],
    [update_document], [delete_document] and [create_index] fails with
    [PermissionError] whatever its input, and its trace is empty: no call to
    the validator, to the sanitizer or to the store was made before. *)
Theorem write_tools_denied_in_safe_mode
    (store : forall T, Motor.call T -> result T) (json_dumps builtin_str : pyobj -> pystr)
    (t : tool) :
  is_write t = true ->
  exists msg,
    run (call_tool store json_dumps builtin_str false t) = ([], Raise (PermissionError msg)).
Proof.
  destruct t; simpl; try discriminate; intros _; eexists; reflexivity.
Qed.

Lemma write_tools_denied_witness :
  is_write (ToolInsertDocument (py "shop") (py "orders") (PyDict [(py "qty", PyInt 2)])) = true
  /\ exists msg,
       run (call_tool empty_store sample_json_dumps sample_str false
              (ToolInsertDocument (py "shop") (py "orders") (PyDict [(py "qty", PyInt 2)])))
       = ([], Raise (PermissionError msg)).
Proof.
  split; [reflexivity|].
  apply (write_tools_denied_in_safe_mode empty_store sample_json_dumps sample_str).
  reflexivity.
Defined.

(** ** Exceptions of the sanitizer *)

Module ClassFacts.
Import InputSanitizer.

Lemma sanitize_string_raises v e : sanitize_string v = Raise e -> gateway_class e.
Proof.
  destruct v; simpl; try (intros [= <-]; exact I).
  destruct (Z.of_nat (List.length s) >? MAX_STRING_LENGTH)%Z; [|discriminate].
  intros [= <-]. exact I.
Qed.

Lemma check_depth_raises obj c e : _check_depth obj c = Raise e -> gateway_class e.
Proof.
  rewrite DepthFacts.check_depth_spec.
  destruct (c + Z.of_nat (depth obj) <=? 10)%Z; [discriminate|].
  intros [= <-]. exact I.
Qed.

Lemma sanitize_dict_unfold items :
  _sanitize_dict (PyDict items) =
  for_each_acc
    (fun sanitized '(key, value) =>
       let* clean_key := sanitize_string (PyStr key) in
       match value with
       | PyStr _ =>
           let* s := sanitize_string value in
           OK (dict_set clean_key (PyStr s) sanitized)
       | PyDict _ =>
           let* d := _sanitize_dict value in
           OK (dict_set clean_key (PyDict d) sanitized)
       | PyList elems =>
           let* l := comprehension (sanitize_item _sanitize_dict) elems in
           OK (dict_set clean_key (PyList l) sanitized)
       | _ => OK (dict_set clean_key value sanitized)
       end)
    items [].
Proof. reflexivity. Qed.

Lemma sanitize_dict_raises obj : forall e, _sanitize_dict obj = Raise e -> gateway_class e.
Proof.
  induction obj as [o Hl Hd|items IH|items IH] using pyobj_ind_elements; intros e.
  - destruct o; try (simpl; intros [= <-]; exact I).
    now contradiction (Hd items).
  - simpl. intros [= <-]. exact I.
  - rewrite sanitize_dict_unfold. intros H.
    apply for_each_acc_raise in H. destruct H as ([key value] & acc & Hin & H).
    rewrite Forall_forall in IH. specialize (IH _ Hin). cbn [snd] in IH.
    destruct IH as [IHv IHelems].
    destruct (sanitize_string (PyStr key)) as [ck|e'] eqn:Ek; cbn [rbind] in H.
    2:{ injection H as <-. eapply sanitize_string_raises; eassumption. }
    destruct value; cbn [rbind] in H; try discriminate.
    + destruct (sanitize_string (PyStr s)) as [s'|e'] eqn:Es; cbn [rbind] in H; [discriminate|].
      injection H as <-. eapply sanitize_string_raises; eassumption.
    + destruct (comprehension (sanitize_item _sanitize_dict) items0) as [l|e'] eqn:El;
        cbn [rbind] in H; [discriminate|].
      injection H as <-. apply comprehension_raise in El.
      destruct El as (item & Hitem & Eitem).
      rewrite Forall_forall in IHelems. specialize (IHelems _ Hitem).
      destruct item; cbn [rbind sanitize_item] in Eitem; try discriminate.
      * destruct (sanitize_string (PyStr s)) as [s'|e''] eqn:Es; cbn [rbind sanitize_item] in Eitem; [discriminate|].
        injection Eitem as <-. eapply sanitize_string_raises; eassumption.
      * destruct (_sanitize_dict (PyDict items1)) as [d|e''] eqn:Ed; cbn [rbind sanitize_item] in Eitem;
          [discriminate|].
        injection Eitem as <-. now apply IHelems.
    + destruct (_sanitize_dict (PyDict items0)) as [d|e'] eqn:Ed; cbn [rbind] in H; [discriminate|].
      injection H as <-. now apply IHv.
Qed.

Lemma sanitize_query_raises query e : sanitize_query query = Raise e -> gateway_class e.
Proof.
  unfold sanitize_query.
  destruct (_check_depth query 0) as [[]|e'] eqn:E; simpl.
  - apply sanitize_dict_raises.
  - intros [= <-]. eapply check_depth_raises; eassumption.
Qed.

Lemma sanitize_document_raises json_dumps document e :
  sanitize_document json_dumps document = Raise e -> gateway_class e.
Proof.
  unfold sanitize_document.
  destruct (Z.of_nat (List.length (json_dumps document)) >? MAX_DOCUMENT_SIZE)%Z.
  - intros [= <-]. exact I.
  - destruct (_check_depth document 0) as [[]|e'] eqn:E; simpl.
    + apply sanitize_dict_raises.
    + intros [= <-]. eapply check_depth_raises; eassumption.
Qed.

End ClassFacts.

(** ** The query validator *)

Module ValidatorFacts.
Import QueryValidator.

Lemma validate_dict_unfold items allow :
  _validate_dict (PyDict items) allow =
  for_each
    (fun '(key, value) =>
       check_key key allow ;;;
       match value with
       | PyDict _ => _validate_dict value allow
       | PyList elems =>
           for_each
             (fun item =>
                match item with
                | PyDict _ => _validate_dict item allow
                | _ => OK tt
                end)
             elems
       | _ => OK tt
       end)
    items.
Proof. reflexivity. Qed.

Lemma check_key_cases key allow :
  check_key key allow = OK tt \/ exists msg, check_key key allow = Raise (ValueError msg).
Proof.
  unfold check_key.
  destruct (startswith (py "$") key); [|now left].
  destruct (str_in key DANGEROUS_OPERATORS && negb allow); [right; eexists; reflexivity|].
  destruct (negb (str_in key SAFE_QUERY_OPERATORS) && negb (str_in key DANGEROUS_OPERATORS));
    [right; eexists; reflexivity | now left].
Qed.

Lemma safe_not_dangerous k : In k SAFE_QUERY_OPERATORS -> ~ In k DANGEROUS_OPERATORS.
Proof.
  intros Hs Hd. apply str_in_In in Hs.
  simpl in Hd. repeat (destruct Hd as [<-|Hd]; [discriminate Hs|]). exact Hd.
Qed.

Lemma dangerous_is_operator k : In k DANGEROUS_OPERATORS -> is_operator k = true.
Proof.
  intros Hd. simpl in Hd. repeat (destruct Hd as [<-|Hd]; [reflexivity|]). contradiction.
Qed.

(** In safe mode a key passes when it is no operator or a safe one. *)
Lemma check_key_safe_mode key :
  check_key key false = OK tt <-> (is_operator key = true -> In key SAFE_QUERY_OPERATORS).
Proof.
  unfold check_key, is_operator.
  destruct (startswith (py "$") key); [|split; [discriminate | reflexivity]].
  destruct (str_in key DANGEROUS_OPERATORS) eqn:Ed; cbn [andb negb].
  - apply str_in_In in Ed. split; [discriminate|].
    intros H. exfalso. exact (safe_not_dangerous _ (H eq_refl) Ed).
  - destruct (str_in key SAFE_QUERY_OPERATORS) eqn:Es; cbn [andb negb].
    + apply str_in_In in Es. split; auto.
    + apply str_in_not_In in Es. split; [discriminate|]. intros H. exfalso. auto.
Qed.

(** In dangerous mode a key passes when it is no operator or a listed one. *)
Lemma check_key_dangerous_mode key :
  check_key key true = OK tt <->
  (is_operator key = true -> In key SAFE_QUERY_OPERATORS \/ In key DANGEROUS_OPERATORS).
Proof.
  unfold check_key, is_operator.
  destruct (startswith (py "$") key); [|split; [discriminate | reflexivity]].
  cbn [negb]. rewrite andb_false_r.
  destruct (str_in key SAFE_QUERY_OPERATORS) eqn:Es;
    destruct (str_in key DANGEROUS_OPERATORS) eqn:Ed; cbn [andb negb];
    rewrite ?str_in_In, ?str_in_not_In in *; split; auto; try discriminate.
  intros H. destruct (H eq_refl); contradiction.
Qed.

Lemma check_key_unknown key allow :
  is_operator key = true -> ~ In key SAFE_QUERY_OPERATORS -> ~ In key DANGEROUS_OPERATORS ->
  check_key key allow <> OK tt.
Proof.
  intros Hop Hs Hd. unfold check_key. unfold is_operator in Hop. rewrite Hop.
  apply str_in_not_In in Hs, Hd. rewrite Hs, Hd. cbn [andb negb]. discriminate.
Qed.

(** On a mapping the validator raises nothing but [ValueError]. *)
Lemma validate_dict_raises obj :
  forall allow e, _validate_dict obj allow = Raise e ->
    match obj with
    | PyDict _ => exists msg, e = ValueError msg
    | _ => True
    end.
Proof.
  induction obj as [o Hl Hd|items IH|items IH] using pyobj_ind_elements; intros allow e.
  - destruct o; try (intros _; exact I). now contradiction (Hd items).
  - intros _. exact I.
  - rewrite validate_dict_unfold. intros H.
    apply for_each_raise in H. destruct H as ([key value] & Hin & H).
    rewrite Forall_forall in IH. specialize (IH _ Hin). cbn [snd] in IH.
    destruct IH as [IHv IHelems].
    destruct (check_key_cases key allow) as [Ek|[msg Ek]]; rewrite Ek in H; cbn [rbind] in H.
    2:{ injection H as <-. now exists msg. }
    destruct value; try discriminate.
    + apply for_each_raise in H. destruct H as (item & Hitem & H).
      rewrite Forall_forall in IHelems. specialize (IHelems _ Hitem).
      destruct item; try discriminate. exact (IHelems _ _ H).
    + exact (IHv _ _ H).
Qed.

Lemma validate_dict_cases d allow :
  _validate_dict (PyDict d) allow = OK tt \/ rejects (_validate_dict (PyDict d) allow).
Proof.
  destruct (_validate_dict (PyDict d) allow) as [[]|e] eqn:E; [now left|].
  right. destruct (validate_dict_raises _ _ _ E) as [msg ->]. now exists msg.
Qed.

(** The validator accepts a mapping exactly when every key it inspects
    passes the operator check. *)
Lemma validate_dict_ok_iff obj :
  forall allow,
    match obj with
    | PyDict d =>
        _validate_dict obj allow = OK tt <-> (forall k, inspects d k -> check_key k allow = OK tt)
    | _ => True
    end.
Proof.
  induction obj as [o Hl Hd|items IH|items IH] using pyobj_ind_elements; intros allow.
  - destruct o; try exact I. now contradiction (Hd items).
  - exact I.
  - rewrite validate_dict_unfold, for_each_ok_iff, Forall_forall.
    rewrite Forall_forall in IH. split.
    + intros Hall k (d' & Hreach & Hk).
      inversion Hreach as [d0|d0 key d1 d2 Hin Hrest|d0 key elems d1 d2 Hin Helem Hrest]; subst.
      * apply in_map_iff in Hk. destruct Hk as ([k' v] & <- & Hin).
        specialize (Hall _ Hin). cbn [rbind fst] in *.
        destruct (check_key k' allow) as [[]|]; [reflexivity | discriminate].
      * specialize (Hall _ Hin). specialize (IH _ Hin). cbn [snd] in IH.
        destruct IH as [IHv _]. specialize (IHv allow). cbn beta iota in IHv, Hall.
        destruct (check_key key allow) as [[]|]; [|discriminate]. cbn [rbind] in Hall.
        apply IHv; [exact Hall|]. eexists. split; eassumption.
      * specialize (Hall _ Hin). specialize (IH _ Hin). cbn [snd] in IH.
        destruct IH as [_ IHe]. rewrite Forall_forall in IHe.
        specialize (IHe _ Helem allow). cbn beta iota in IHe, Hall.
        destruct (check_key key allow) as [[]|]; [|discriminate]. cbn [rbind] in Hall.
        rewrite for_each_ok_iff, Forall_forall in Hall. specialize (Hall _ Helem).
        apply IHe; [exact Hall|]. eexists. split; eassumption.
    + intros Hk [key value] Hin.
      assert (Ekey : check_key key allow = OK tt).
      { apply Hk. exists items. split; [constructor|].
        apply in_map_iff. exists (key, value). auto. }
      rewrite Ekey. cbn [rbind].
      specialize (IH _ Hin). cbn [snd] in IH. destruct IH as [IHv IHe].
      destruct value; try reflexivity.
      * rewrite for_each_ok_iff, Forall_forall. intros item Hitem.
        rewrite Forall_forall in IHe. specialize (IHe _ Hitem allow).
        destruct item; try reflexivity. apply IHe.
        intros k (d' & Hreach & Hin'). apply Hk. exists d'. split; [|exact Hin'].
        eapply reaches_element; eassumption.
      * apply (IHv allow).
        intros k (d' & Hreach & Hin'). apply Hk. exists d'. split; [|exact Hin'].
        eapply reaches_value; eassumption.
Qed.

Lemma validate_query_ok_iff d allow :
  validate_query (PyDict d) allow = OK tt <->
  (forall k, inspects d k -> check_key k allow = OK tt).
Proof. exact (validate_dict_ok_iff (PyDict d) allow). Qed.

Lemma validate_query_rejects d allow k :
  inspects d k -> check_key k allow <> OK tt -> rejects (validate_query (PyDict d) allow).
Proof.
  intros Hk Hbad. unfold validate_query.
  destruct (validate_dict_cases d allow) as [Hok|Hrej]; [|exact Hrej].
  exfalso. apply Hbad. exact (proj1 (validate_query_ok_iff d allow) Hok k Hk).
Qed.

End ValidatorFacts.

(** C2, as stated, fails twice. A query that holds [$where] below two
    levels of sequences is accepted with [dangerous_mode = false]; a query
    that holds [$where] next to an unlisted operator is rejected with
    [dangerous_mode = true]. *)
Lemma dangerous_operator_not_decisive :
  (contains_key (PyDict nested_where) (py "$where")
   /\ In (py "$where") QueryValidator.DANGEROUS_OPERATORS
   /\ QueryValidator.validate_query (PyDict nested_where) false = OK tt)
  /\ (contains_key (PyDict where_and_custom) (py "$where")
      /\ rejects (QueryValidator.validate_query (PyDict where_and_custom) true)).
Proof.
  split; [split; [|split]|split].
  - exists [(py "$where", PyStr (py "1"))]. split; [|now left].
    eapply holds_value; [now left|].
    eapply holds_element; [now left|].
    eapply holds_element; [now left|]. constructor.
  - simpl. tauto.
  - reflexivity.
  - exists where_and_custom. split; [constructor | now left].
  - eexists. reflexivity.
Qed.

(** C2, amended. When a key of [DANGEROUS_OPERATORS] is among the keys the
    validator inspects (the keys of the query, of the mappings that are
    values of inspected mappings, and of the mappings that are direct
    elements of their sequence values), [validate_query] rejects the query
    with [dangerous_mode = false]; with [dangerous_mode = true] it accepts
    the query exactly when every operator-prefixed key it inspects is in
    [SAFE_QUERY_OPERATORS] or [DANGEROUS_OPERATORS]. *)
Theorem dangerous_operator_gate (d : dict) (k : pystr) :
  inspects d k ->
  In k QueryValidator.DANGEROUS_OPERATORS ->
  rejects (QueryValidator.validate_query (PyDict d) false)
  /\ (QueryValidator.validate_query (PyDict d) true = OK tt <->
      forall k', inspects d k' -> is_operator k' = true ->
        In k' QueryValidator.SAFE_QUERY_OPERATORS \/ In k' QueryValidator.DANGEROUS_OPERATORS).
Proof.
  intros Hk Hd. split.
  - apply (ValidatorFacts.validate_query_rejects d false k Hk).
    rewrite ValidatorFacts.check_key_safe_mode. intros H.
    exact (ValidatorFacts.safe_not_dangerous _ (H (ValidatorFacts.dangerous_is_operator _ Hd)) Hd).
  - rewrite ValidatorFacts.validate_query_ok_iff. split.
    + intros H k' Hk'. apply ValidatorFacts.check_key_dangerous_mode. now apply H.
    + intros H k' Hk'. apply ValidatorFacts.check_key_dangerous_mode. now apply H.
Qed.

Lemma dangerous_operator_gate_witness :
  inspects or_where (py "$where")
  /\ In (py "$where") QueryValidator.DANGEROUS_OPERATORS
  /\ rejects (QueryValidator.validate_query (PyDict or_where) false)
  /\ QueryValidator.validate_query (PyDict or_where) true = OK tt.
Proof.
  assert (Hk : inspects or_where (py "$where")).
  { exists [(py "$where", PyStr (py "1"))]. split; [|now left].
    eapply reaches_element; [now left | right; now left | constructor]. }
  assert (Hd : In (py "$where") QueryValidator.DANGEROUS_OPERATORS) by (simpl; tauto).
  split; [exact Hk|]. split; [exact Hd|].
  split; [exact (proj1 (dangerous_operator_gate or_where (py "$where") Hk Hd))|].
  reflexivity.
Defined.

(** C3, as stated, fails: a query that holds an unlisted operator below two
    levels of sequences is accepted in both modes. *)
Lemma unknown_operator_in_nested_sequence_accepted :
  contains_key (PyDict nested_custom) (py "$custom")
  /\ is_operator (py "$custom") = true
  /\ ~ In (py "$custom") QueryValidator.SAFE_QUERY_OPERATORS
  /\ ~ In (py "$custom") QueryValidator.DANGEROUS_OPERATORS
  /\ QueryValidator.validate_query (PyDict nested_custom) false = OK tt
  /\ QueryValidator.validate_query (PyDict nested_custom) true = OK tt.
Proof.
  split; [|split; [reflexivity|split; [|split; [|split; reflexivity]]]].
  - exists [(py "$custom", PyInt 1)]. split; [|now left].
    eapply holds_value; [now left|].
    eapply holds_element; [now left|].
    eapply holds_element; [now left|]. constructor.
  - apply str_in_not_In. reflexivity.
  - apply str_in_not_In. reflexivity.
Qed.

(** C3, amended. When an operator-prefixed key that is in neither
    [SAFE_QUERY_OPERATORS] nor [DANGEROUS_OPERATORS] is among the keys the
    validator inspects (the keys of the query, of the mappings that are
    values of inspected mappings, and of the mappings that are direct
    elements of their sequence values), [validate_query] rejects the query
    whatever [dangerous_mode] is. *)
Theorem unknown_operator_rejected (d : dict) (k : pystr) (allow_dangerous : bool) :
  inspects d k ->
  is_operator k = true ->
  ~ In k QueryValidator.SAFE_QUERY_OPERATORS ->
  ~ In k QueryValidator.DANGEROUS_OPERATORS ->
  rejects (QueryValidator.validate_query (PyDict d) allow_dangerous).
Proof.
  intros Hk Hop Hs Hd.
  apply (ValidatorFacts.validate_query_rejects d allow_dangerous k Hk).
  now apply ValidatorFacts.check_key_unknown.
Qed.

Lemma unknown_operator_rejected_witness :
  inspects age_custom (py "$custom")
  /\ rejects (QueryValidator.validate_query (PyDict age_custom) false)
  /\ rejects (QueryValidator.validate_query (PyDict age_custom) true).
Proof.
  assert (Hk : inspects age_custom (py "$custom")).
  { exists [(py "$custom", PyInt 1)]. split; [|now left].
    eapply reaches_value; [now left | constructor]. }
  assert (Hs : ~ In (py "$custom") QueryValidator.SAFE_QUERY_OPERATORS)
    by (apply str_in_not_In; reflexivity).
  assert (Hd : ~ In (py "$custom") QueryValidator.DANGEROUS_OPERATORS)
    by (apply str_in_not_In; reflexivity).
  split; [exact Hk|].
  split; apply (unknown_operator_rejected age_custom (py "$custom") _ Hk eq_refl Hs Hd).
Defined.

(** ** The pipeline validator *)

Module PipelineFacts.
Import AggregationValidator.

Lemma safe_stage_not_dangerous name : In name SAFE_STAGES -> ~ In name DANGEROUS_STAGES.
Proof.
  intros Hs Hd. apply str_in_In in Hs.
  simpl in Hd. repeat (destruct Hd as [<-|Hd]; [discriminate Hs|]). exact Hd.
Qed.

Lemma check_stage_cases i stage allow :
  check_stage i stage allow = OK tt \/ rejects (check_stage i stage allow).
Proof.
  unfold check_stage. destruct stage; try (right; eexists; reflexivity).
  destruct items as [|[name body] [|kv items]]; cbn [List.length Nat.eqb negb dict_keys map fst];
    try (right; eexists; reflexivity).
  destruct (str_in name DANGEROUS_STAGES && negb allow); [right; eexists; reflexivity|].
  destruct (negb (str_in name SAFE_STAGES) && negb (str_in name DANGEROUS_STAGES));
    [right; eexists; reflexivity | now left].
Qed.

(** A stage passes exactly when it is a one-key mapping whose key is a safe
    stage, or a dangerous one in dangerous mode. *)
Lemma check_stage_ok i stage allow :
  check_stage i stage allow = OK tt <->
  exists name body, stage = PyDict [(name, body)] /\ listed name allow.
Proof.
  unfold check_stage, listed. split.
  - destruct stage; try discriminate.
    destruct items as [|[name body] [|kv items]];
      cbn [List.length Nat.eqb negb dict_keys map fst]; try discriminate.
    destruct (str_in name DANGEROUS_STAGES) eqn:Ed; destruct allow; cbn [andb negb];
      try discriminate;
      destruct (str_in name SAFE_STAGES) eqn:Es; cbn [andb negb]; try discriminate;
      intros _; exists name, body; rewrite ?str_in_In in *; auto.
  - intros (name & body & -> & H).
    cbn [List.length Nat.eqb negb dict_keys map fst].
    destruct (str_in name DANGEROUS_STAGES) eqn:Ed.
    + apply str_in_In in Ed. destruct allow; cbn [andb negb].
      * now rewrite andb_false_r.
      * exfalso. destruct H as [H|[_ H]]; [|discriminate].
        exact (safe_stage_not_dangerous _ H Ed).
    + cbn [andb negb].
      destruct (str_in name SAFE_STAGES) eqn:Es; cbn [andb negb]; [reflexivity|].
      exfalso. apply str_in_not_In in Es, Ed. destruct H as [H|[H _]]; contradiction.
Qed.

Lemma check_stages_cases stages : forall i allow,
  check_stages i stages allow = OK tt \/ rejects (check_stages i stages allow).
Proof.
  induction stages as [|stage stages IH]; intros i allow; simpl; [now left|].
  destruct (check_stage_cases i stage allow) as [E|[msg E]]; rewrite E; simpl.
  - apply IH.
  - right. now exists msg.
Qed.

Lemma check_stages_ok stages : forall i allow,
  check_stages i stages allow = OK tt <->
  Forall (fun stage => exists name body, stage = PyDict [(name, body)] /\ listed name allow)
    stages.
Proof.
  induction stages as [|stage stages IH]; intros i allow; simpl.
  - split; [constructor | reflexivity].
  - destruct (check_stage i stage allow) as [[]|e] eqn:E; simpl.
    + rewrite IH. apply check_stage_ok in E. split; [now constructor | now inversion 1].
    + split; [discriminate|]. inversion 1 as [|? ? Hs _]; subst.
      apply (check_stage_ok i) in Hs. congruence.
Qed.

Lemma validate_pipeline_cases pipeline allow max_stages :
  validate_pipeline pipeline allow max_stages = OK tt
  \/ rejects (validate_pipeline pipeline allow max_stages).
Proof.
  unfold validate_pipeline.
  destruct (Z.of_nat (List.length pipeline) >? max_stages)%Z; [right; eexists; reflexivity|].
  apply check_stages_cases.
Qed.

Lemma validate_pipeline_ok pipeline allow max_stages :
  validate_pipeline pipeline allow max_stages = OK tt <->
  (Z.of_nat (List.length pipeline) <= max_stages)%Z
  /\ Forall (fun stage => exists name body, stage = PyDict [(name, body)] /\ listed name allow)
       pipeline.
Proof.
  unfold validate_pipeline.
  destruct (Z.of_nat (List.length pipeline) >? max_stages)%Z eqn:E; zbool.
  - split; [discriminate | lia].
  - rewrite check_stages_ok. split; [intros H; split; [lia | exact H] | now intros [_ H]].
Qed.

End PipelineFacts.

(** C4. A pipeline with a stage whose name is in neither [SAFE_STAGES] nor
    [DANGEROUS_STAGES] is rejected by [validate_pipeline] whatever
    [dangerous_mode] and the stage limit are. The rule is stricter than the
    one for query operators: the name need not carry the operator prefix,
    while the operator check of the query validator lets the same name
    through when it lacks the prefix. *)
Theorem unknown_stage_rejected (pipeline : list pyobj) (stage : pyobj) (name : pystr)
    (allow_dangerous : bool) (max_stages : Z) :
  In stage pipeline ->
  stage_name stage = Some name ->
  ~ In name AggregationValidator.SAFE_STAGES ->
  ~ In name AggregationValidator.DANGEROUS_STAGES ->
  rejects (AggregationValidator.validate_pipeline pipeline allow_dangerous max_stages)
  /\ (is_operator name = false -> QueryValidator.check_key name allow_dangerous = OK tt).
Proof.
  intros Hin Hname Hs Hd. split.
  - destruct (PipelineFacts.validate_pipeline_cases pipeline allow_dangerous max_stages)
      as [Hok|Hrej]; [exfalso | exact Hrej].
    apply PipelineFacts.validate_pipeline_ok in Hok. destruct Hok as [_ Hall].
    rewrite Forall_forall in Hall. destruct (Hall _ Hin) as (n & b & -> & Hn).
    injection Hname as ->. destruct Hn as [Hn|[Hn _]]; contradiction.
  - intros Hop. unfold QueryValidator.check_key. unfold is_operator in Hop. now rewrite Hop.
Qed.

Lemma unknown_stage_rejected_witness :
  In (PyDict [(py "$custom", PyInt 1)]) match_then_custom
  /\ rejects (AggregationValidator.validate_pipeline match_then_custom true 20).
Proof.
  assert (Hin : In (PyDict [(py "$custom", PyInt 1)]) match_then_custom)
    by (right; now left).
  split; [exact Hin|].
  refine (proj1 (unknown_stage_rejected match_then_custom _ (py "$custom") true 20
                   Hin eq_refl _ _)); apply str_in_not_In; reflexivity.
Defined.

(** ** The structure sanitizer *)

Module StructureFacts.
Import InputSanitizer SanitizerFacts.

Lemma sanitize_dict_by_value items :
  _sanitize_dict (PyDict items) =
  for_each_acc
    (fun sanitized '(key, value) =>
       let* clean_key := sanitize_string (PyStr key) in
       let* v := sanitize_value value in
       OK (dict_set clean_key v sanitized))
    items [].
Proof.
  rewrite ClassFacts.sanitize_dict_unfold. apply for_each_acc_ext.
  intros acc [key value].
  destruct (sanitize_string (PyStr key)) as [ck|e]; cbn [rbind]; [|reflexivity].
  destruct value; cbn [sanitize_value rbind]; try reflexivity.
  - destruct (sanitize_string (PyStr s)); reflexivity.
  - destruct (comprehension (sanitize_item _sanitize_dict) items0); reflexivity.
  - destruct (_sanitize_dict (PyDict items0)); reflexivity.
Qed.

Lemma rebuild_loop (sv : pyobj -> result pyobj) (ok : pyobj -> bool) (g : pyobj -> pyobj) items :
  Forall (fun kv => sv (snd kv) = if ok (snd kv) then OK (g (snd kv)) else Raise length_error)
    items ->
  forall acc,
    NoDup (dict_keys acc ++ map (fun kv => clean (fst kv)) items) ->
    for_each_acc
      (fun sanitized '(key, value) =>
         let* clean_key := sanitize_string (PyStr key) in
         let* v := sv value in
         OK (dict_set clean_key v sanitized))
      items acc
    = if forallb (fun '(k, v) => within_limit k && ok v) items
      then OK (acc ++ map (fun '(k, v) => (clean k, g v)) items)
      else Raise length_error.
Proof.
  induction 1 as [|[k v] items Hv Hitems IH]; intros acc Hnd.
  - simpl. now rewrite app_nil_r.
  - rewrite for_each_acc_cons. cbn [forallb map].
    rewrite sanitize_string_str. fold length_error.
    destruct (within_limit k); cbn [rbind andb]; [|reflexivity].
    cbn [snd] in Hv. rewrite Hv.
    destruct (ok v); cbn [rbind]; [|reflexivity].
    simpl in Hnd.
    rewrite dict_set_fresh.
    2:{ apply NoDup_remove_2 in Hnd. intros Hin. apply Hnd. apply in_or_app. now left. }
    rewrite IH.
    + rewrite <- app_assoc. reflexivity.
    + unfold dict_keys. rewrite map_app. simpl. rewrite <- app_assoc. exact Hnd.
Qed.

Lemma sanitize_value_rebuilds value :
  and_elements rebuilds value ->
  clean_keys_distinct value = true ->
  sanitize_value value =
  if strings_within_limit value then OK (rebuilt value) else Raise length_error.
Proof.
  intros [Hv Helems] Hd. destruct value; try reflexivity.
  - cbn [sanitize_value strings_within_limit rebuilt]. rewrite sanitize_string_str.
    fold length_error. destruct (within_limit s); reflexivity.
  - cbn [sanitize_value].
    rewrite (comprehension_decide (sanitize_item _sanitize_dict)
               (fun item => match item with
                            | PyStr s => within_limit s
                            | PyDict _ => strings_within_limit item
                            | _ => true
                            end)
               (fun item => match item with
                            | PyStr s => PyStr (clean s)
                            | PyDict _ => rebuilt item
                            | _ => item
                            end)
               length_error).
    + change (strings_within_limit (PyList items))
        with (forallb (fun item => match item with
                                   | PyStr s => within_limit s
                                   | PyDict _ => strings_within_limit item
                                   | _ => true
                                   end) items).
      destruct (forallb _ items); reflexivity.
    + rewrite Forall_forall in *. intros item Hin.
      cbn [clean_keys_distinct] in Hd. rewrite forallb_forall in Hd.
      specialize (Hd _ Hin). specialize (Helems _ Hin).
      destruct item; try reflexivity.
      * cbn [sanitize_item]. rewrite sanitize_string_str. fold length_error.
        destruct (within_limit s); reflexivity.
      * cbn [sanitize_item]. rewrite (Helems Hd).
        destruct (strings_within_limit (PyDict items0)); reflexivity.
  - cbn [sanitize_value]. rewrite (Hv Hd).
    destruct (strings_within_limit (PyDict items)); reflexivity.
Qed.

Lemma sanitize_dict_rebuilds_all obj : rebuilds obj.
Proof.
  induction obj as [o Hl Hd|items IH|items IH] using pyobj_ind_elements.
  - destruct o; try exact I. now contradiction (Hd items).
  - exact I.
  - intros Hdist. rewrite sanitize_dict_by_value.
    cbn [clean_keys_distinct] in Hdist. apply andb_true_iff in Hdist.
    destruct Hdist as [Hkeys Hvals]. apply distinct_NoDup in Hkeys.
    rewrite forallb_forall in Hvals.
    assert (Hloop : Forall (fun kv => clean_keys_distinct (snd kv) = true
                                       /\ and_elements rebuilds (snd kv)) items).
    { rewrite Forall_forall in *. intros [k v] Hin. split; [exact (Hvals _ Hin) | exact (IH _ Hin)]. }
    clear IH Hvals.
    rewrite (rebuild_loop sanitize_value strings_within_limit rebuilt).
    + reflexivity.
    + eapply Forall_impl; [|exact Hloop]. intros [k v] [H1 H2].
      now apply sanitize_value_rebuilds.
    + exact Hkeys.
Qed.

End StructureFacts.

(** Mappings whose keys may be cleaned to the same string. *)

Lemma dict_set_keys_iff key value d k' :
  In k' (dict_keys (dict_set key value d)) <-> k' = key \/ In k' (dict_keys d).
Proof.
  induction d as [|[k v] d IH]; simpl.
  - split; [intros [<-|[]]; now left | intros [->|[]]; now left].
  - destruct (str_eqb k key) eqn:E; simpl.
    + apply str_eqb_eq in E. subst k. split; [tauto|]. intros [->|H]; [now left | exact H].
    + rewrite IH. split; [tauto|]. tauto.
Qed.

Lemma dict_set_entries key value d k' v' :
  In (k', v') (dict_set key value d) -> (k' = key /\ v' = value) \/ In (k', v') d.
Proof.
  induction d as [|[k v] d IH]; simpl.
  - intros [[= <- <-]|[]]. now left.
  - destruct (str_eqb k key) eqn:E; simpl.
    + apply str_eqb_eq in E. subst k. intros [[= <- <-]|H]; [now left | right; now right].
    + intros [H|H]; [right; now left|]. destruct (IH H) as [?|?]; [now left | right; now right].
Qed.

Lemma assigned_cons entry entries d :
  assigned (entry :: entries) d = assigned entries (dict_set (fst entry) (snd entry) d).
Proof. reflexivity. Qed.

Lemma assigned_keys entries : forall d k',
  In k' (dict_keys (assigned entries d)) <-> In k' (dict_keys d) \/ In k' (map fst entries).
Proof.
  induction entries as [|[k v] entries IH]; intros d k'.
  - simpl. tauto.
  - rewrite assigned_cons, IH, dict_set_keys_iff. simpl. split.
    + intros [[->|H]|H]; auto.
    + intros [H|[<-|H]]; auto.
Qed.

Lemma assigned_entries entries : forall d k' v',
  In (k', v') (assigned entries d) -> In (k', v') d \/ In (k', v') entries.
Proof.
  induction entries as [|[k v] entries IH]; intros d k' v' H.
  - now left.
  - rewrite assigned_cons in H. destruct (IH _ _ _ H) as [H'|H']; [|right; now right].
    apply dict_set_entries in H'. cbn [fst snd] in H'.
    destruct H' as [[-> ->]|H']; [right; now left | now left].
Qed.

Lemma assigned_distinct entries : forall d,
  NoDup (dict_keys d ++ map fst entries) -> assigned entries d = d ++ entries.
Proof.
  induction entries as [|[k v] entries IH]; intros d Hnd.
  - simpl. now rewrite app_nil_r.
  - rewrite assigned_cons. cbn [fst snd]. simpl in Hnd.
    rewrite dict_set_fresh.
    2:{ apply NoDup_remove_2 in Hnd. intros Hin. apply Hnd. apply in_or_app. now left. }
    rewrite IH.
    + now rewrite <- app_assoc.
    + unfold dict_keys. rewrite map_app. simpl. rewrite <- app_assoc. exact Hnd.
Qed.

Lemma assigned_app pre post d : assigned (pre ++ post) d = assigned post (assigned pre d).
Proof. apply fold_left_app. Qed.

Lemma dict_get_set_same key value d : dict_get key (dict_set key value d) = Some value.
Proof.
  induction d as [|[k v] d IH]; simpl.
  - now rewrite str_eqb_refl.
  - destruct (str_eqb k key) eqn:E; simpl; rewrite E; [reflexivity | exact IH].
Qed.

Lemma dict_get_set_other key key' value d :
  key' <> key -> dict_get key' (dict_set key value d) = dict_get key' d.
Proof.
  intros Hne. induction d as [|[k v] d IH]; simpl.
  - destruct (str_eqb key key') eqn:E; [|reflexivity].
    apply str_eqb_eq in E. congruence.
  - destruct (str_eqb k key) eqn:E; simpl.
    + apply str_eqb_eq in E. subst k.
      destruct (str_eqb key key') eqn:E'; [|reflexivity].
      apply str_eqb_eq in E'. congruence.
    + destruct (str_eqb k key'); [reflexivity | exact IH].
Qed.

Lemma assigned_get_other entries : forall d k',
  ~ In k' (map fst entries) -> dict_get k' (assigned entries d) = dict_get k' d.
Proof.
  induction entries as [|[k v] entries IH]; intros d k' Hnin.
  - reflexivity.
  - rewrite assigned_cons, IH.
    + cbn [fst snd]. apply dict_get_set_other. intros ->. apply Hnin. now left.
    + intros Hin. apply Hnin. now right.
Qed.

(** The value of a key is the one assigned last. *)
Lemma assigned_get_last pre key value post d :
  ~ In key (map fst post) ->
  dict_get key (assigned (pre ++ (key, value) :: post) d) = Some value.
Proof.
  intros Hnin. rewrite assigned_app, assigned_cons. cbn [fst snd].
  rewrite assigned_get_other by exact Hnin. apply dict_get_set_same.
Qed.

Module MergeFacts.
Import InputSanitizer SanitizerFacts.

Lemma sanitized_form_dict items :
  sanitized_form (PyDict items) = PyDict (sanitized_items items).
Proof. reflexivity. Qed.

Lemma sanitized_form_list elems :
  sanitized_form (PyList elems) =
  PyList (map (fun item =>
                 match item with
                 | PyStr s => PyStr (clean s)
                 | PyDict _ => sanitized_form item
                 | _ => item
                 end) elems).
Proof. reflexivity. Qed.

(** The loop of [_sanitize_dict], whatever the keys. *)
Lemma assign_loop (sv : pyobj -> result pyobj) (ok : pyobj -> bool) (g : pyobj -> pyobj) items :
  Forall (fun kv => sv (snd kv) = if ok (snd kv) then OK (g (snd kv)) else Raise length_error)
    items ->
  forall acc,
    for_each_acc
      (fun sanitized '(key, value) =>
         let* clean_key := sanitize_string (PyStr key) in
         let* v := sv value in
         OK (dict_set clean_key v sanitized))
      items acc
    = if forallb (fun '(k, v) => within_limit k && ok v) items
      then OK (assigned (map (fun '(k, v) => (clean k, g v)) items) acc)
      else Raise length_error.
Proof.
  induction 1 as [|[k v] items Hv Hitems IH]; intros acc.
  - reflexivity.
  - rewrite for_each_acc_cons. cbn [forallb map].
    rewrite sanitize_string_str. fold length_error.
    destruct (within_limit k); cbn [rbind andb]; [|reflexivity].
    cbn [snd] in Hv. rewrite Hv.
    destruct (ok v); cbn [rbind]; [|reflexivity].
    rewrite IH. reflexivity.
Qed.

Lemma sanitize_value_sanitizes value :
  and_elements sanitizes value ->
  sanitize_value value =
  if strings_within_limit value then OK (sanitized_form value) else Raise length_error.
Proof.
  intros [Hv Helems]. destruct value; try reflexivity.
  - cbn [sanitize_value strings_within_limit sanitized_form]. rewrite sanitize_string_str.
    fold length_error. destruct (within_limit s); reflexivity.
  - cbn [sanitize_value].
    rewrite (comprehension_decide (sanitize_item _sanitize_dict)
               (fun item => match item with
                            | PyStr s => within_limit s
                            | PyDict _ => strings_within_limit item
                            | _ => true
                            end)
               (fun item => match item with
                            | PyStr s => PyStr (clean s)
                            | PyDict _ => sanitized_form item
                            | _ => item
                            end)
               length_error).
    + change (strings_within_limit (PyList items))
        with (forallb (fun item => match item with
                                   | PyStr s => within_limit s
                                   | PyDict _ => strings_within_limit item
                                   | _ => true
                                   end) items).
      rewrite sanitized_form_list. destruct (forallb _ items); reflexivity.
    + rewrite Forall_forall in *. intros item Hin. specialize (Helems _ Hin).
      destruct item; try reflexivity.
      * cbn [sanitize_item]. rewrite sanitize_string_str. fold length_error.
        destruct (within_limit s); reflexivity.
      * cbn [sanitize_item]. cbn [sanitizes] in Helems. rewrite Helems.
        destruct (strings_within_limit (PyDict items0)); reflexivity.
  - cbn [sanitize_value]. cbn [sanitizes] in Hv. rewrite Hv.
    destruct (strings_within_limit (PyDict items)); reflexivity.
Qed.

Lemma sanitize_dict_sanitizes_all obj : sanitizes obj.
Proof.
  induction obj as [o Hl Hd|items IH|items IH] using pyobj_ind_elements.
  - destruct o; try exact I. now contradiction (Hd items).
  - exact I.
  - cbn [sanitizes]. rewrite StructureFacts.sanitize_dict_by_value.
    rewrite (assign_loop sanitize_value strings_within_limit sanitized_form).
    + reflexivity.
    + eapply Forall_impl; [|exact IH]. intros [k v] H.
      now apply sanitize_value_sanitizes.
Qed.

(** With distinct cleaned keys the sanitized form is the rebuilt one. *)
Lemma sanitized_form_rebuilt value :
  clean_keys_distinct value = true -> sanitized_form value = rebuilt value.
Proof.
  induction value as [| | | |s| | | |items IH|items IH] using pyobj_ind; intros H;
    try reflexivity.
  - rewrite sanitized_form_list. cbn [rebuilt]. f_equal. apply map_ext_in.
    intros item Hin. cbn [clean_keys_distinct] in H. rewrite forallb_forall in H.
    rewrite Forall_forall in IH. specialize (IH _ Hin). specialize (H _ Hin).
    destruct item; try reflexivity. now apply IH.
  - rewrite sanitized_form_dict. cbn [rebuilt]. f_equal. unfold sanitized_items.
    cbn [clean_keys_distinct] in H. apply andb_true_iff in H. destruct H as [Hkeys Hvals].
    apply distinct_NoDup in Hkeys. rewrite forallb_forall in Hvals.
    rewrite assigned_distinct.
    + cbn [app]. apply map_ext_in. intros [k v] Hin.
      rewrite Forall_forall in IH. specialize (IH _ Hin). cbn [snd] in IH.
      now rewrite (IH (Hvals _ Hin)).
    + cbn [dict_keys map app]. rewrite map_map.
      erewrite map_ext; [exact Hkeys|]. now intros [k v].
Qed.

Lemma sanitized_items_rebuilt items :
  clean_keys_distinct (PyDict items) = true -> sanitized_items items = rebuilt_items items.
Proof.
  intros H. pose proof (sanitized_form_rebuilt (PyDict items) H) as E.
  rewrite sanitized_form_dict in E. cbn [rebuilt] in E. now injection E.
Qed.

Lemma is_clean_clean s : is_clean (clean s) = true.
Proof. unfold is_clean. rewrite clean_idem. apply str_eqb_refl. Qed.

(** The sanitized form has only clean strings where the sanitizer looks. *)
Lemma sanitized_form_strings_clean value : strings_clean (sanitized_form value) = true.
Proof.
  induction value as [| | | |s| | | |items IH|items IH] using pyobj_ind; try reflexivity.
  - apply is_clean_clean.
  - rewrite sanitized_form_list. cbn [strings_clean]. rewrite forallb_forall.
    intros x Hx. apply in_map_iff in Hx. destruct Hx as (item & <- & Hin).
    rewrite Forall_forall in IH. specialize (IH _ Hin).
    destruct item; try reflexivity.
    + apply is_clean_clean.
    + exact IH.
  - rewrite sanitized_form_dict. cbn [strings_clean]. rewrite forallb_forall.
    intros [k' v'] Hx. unfold sanitized_items in Hx. apply assigned_entries in Hx.
    destruct Hx as [[]|Hx].
    apply in_map_iff in Hx. destruct Hx as ([k v] & [= <- <-] & Hin).
    rewrite Forall_forall in IH. specialize (IH _ Hin). cbn [snd] in IH.
    now rewrite is_clean_clean, IH.
Qed.

Lemma sanitized_items_keys items k' :
  In k' (dict_keys (sanitized_items items)) <-> exists k, In k (dict_keys items) /\ k' = clean k.
Proof.
  unfold sanitized_items. rewrite assigned_keys. cbn [dict_keys map]. split.
  - intros [[]|H]. apply in_map_iff in H. destruct H as ([k0 v0] & <- & H).
    apply in_map_iff in H. destruct H as ([k v] & [= <- <-] & Hin).
    exists k. split; [|reflexivity]. unfold dict_keys. apply in_map_iff. now exists (k, v).
  - intros (k & Hin & ->). right. unfold dict_keys in Hin. apply in_map_iff in Hin.
    destruct Hin as ([k0 v] & <- & Hin). apply in_map_iff.
    exists (clean k0, sanitized_form v). split; [reflexivity|].
    apply in_map_iff. now exists (k0, v).
Qed.

Lemma sanitized_items_entries items k' v' :
  In (k', v') (sanitized_items items) ->
  exists k v, In (k, v) items /\ k' = clean k /\ v' = sanitized_form v.
Proof.
  intros H. unfold sanitized_items in H. apply assigned_entries in H. destruct H as [[]|H].
  apply in_map_iff in H. destruct H as ([k v] & [= <- <-] & Hin). now exists k, v.
Qed.

Lemma sanitized_items_last pre key value post :
  ~ In (clean key) (map clean (dict_keys post)) ->
  dict_get (clean key) (sanitized_items (pre ++ (key, value) :: post))
  = Some (sanitized_form value).
Proof.
  intros Hnin. unfold sanitized_items. rewrite map_app. cbn [map].
  apply assigned_get_last. unfold dict_keys in Hnin. rewrite !map_map in *.
  erewrite map_ext; [exact Hnin|]. now intros [k v].
Qed.

End MergeFacts.

(** C6, as stated, fails twice. A string below two levels of sequences is
    returned as it came although [sanitize_string] would edit it; and two
    keys cleaned to the same string leave one entry where there were two. *)
Lemma sanitize_dict_misses_nested_sequences :
  (holds (PyDict nested_strings) (PyStr (py " x"))
   /\ InputSanitizer.sanitize_string (PyStr (py " x")) = OK (py "x")
   /\ InputSanitizer._sanitize_dict (PyDict nested_strings) = OK nested_strings)
  /\ (InputSanitizer._sanitize_dict (PyDict colliding_keys) = OK [(py "a", PyInt 2)]
      /\ List.length colliding_keys = 2%nat).
Proof.
  split; [split; [|split; reflexivity] | split; reflexivity].
  eapply holds_value; [now left|].
  eapply holds_element; [now left|].
  eapply holds_element; [now left|]. constructor.
Qed.

(** C6, amended. For every input mapping whose inspected strings are within
    the length limit, [_sanitize_dict] returns the sanitized form of the
    mapping: every key and every string value is cleaned, in the mapping
    itself, in each mapping that is a value, and in each mapping that is a
    direct element of a sequence value; a string that is a direct element of
    a sequence value is cleaned; an element of a sequence value that is
    itself a sequence is kept as it is, with all it holds; other scalars are
    kept. The keys returned are the cleaned keys of the input, each entry
    returned is a cleaned key with the sanitized form of a value of the
    input, a key holds the value that was assigned to it last, and every
    string the sanitizer looks at in the result is clean. When no two keys of
    one rebuilt mapping are cleaned to the same string, the keys come out
    cleaned in their original order and the shape is the input's. *)
Theorem sanitize_dict_rebuilds (items : dict) :
  strings_within_limit (PyDict items) = true ->
  exists sanitized,
    InputSanitizer._sanitize_dict (PyDict items) = OK sanitized
    /\ PyDict sanitized = sanitized_form (PyDict items)
    /\ (forall k', In k' (dict_keys sanitized) <->
                   exists k, In k (dict_keys items) /\ k' = clean k)
    /\ (forall k' v', In (k', v') sanitized ->
                      exists k v, In (k, v) items /\ k' = clean k /\ v' = sanitized_form v)
    /\ (forall pre k v post,
          items = pre ++ (k, v) :: post ->
          ~ In (clean k) (map clean (dict_keys post)) ->
          dict_get (clean k) sanitized = Some (sanitized_form v))
    /\ strings_clean (PyDict sanitized) = true
    /\ (clean_keys_distinct (PyDict items) = true ->
        PyDict sanitized = rebuilt (PyDict items)
        /\ dict_keys sanitized = map clean (dict_keys items)
        /\ List.length sanitized = List.length items).
Proof.
  intros Hlim. exists (sanitized_items items).
  pose proof (MergeFacts.sanitize_dict_sanitizes_all (PyDict items)) as H.
  cbn [sanitizes] in H. rewrite Hlim in H.
  split; [exact H|]. split; [reflexivity|].
  split; [apply MergeFacts.sanitized_items_keys|].
  split; [apply MergeFacts.sanitized_items_entries|].
  split; [intros pre k v post ->; apply MergeFacts.sanitized_items_last|].
  split; [exact (MergeFacts.sanitized_form_strings_clean (PyDict items))|].
  intros Hdist. rewrite (MergeFacts.sanitized_items_rebuilt items Hdist).
  split; [reflexivity|].
  unfold rebuilt_items, dict_keys. rewrite length_map, !map_map. split; [|reflexivity].
  apply map_ext. now intros [k v].
Qed.

Lemma sanitize_dict_rebuilds_witness :
  InputSanitizer._sanitize_dict (PyDict colliding_strings) = OK [(py "a", PyStr (py "y"))]
  /\ exists sanitized,
       InputSanitizer._sanitize_dict (PyDict untidy) = OK sanitized
       /\ PyDict sanitized = rebuilt (PyDict untidy)
       /\ dict_keys sanitized = [py "name"; py "tags"; py "n"]
       /\ List.length sanitized = 3%nat.
Proof.
  split.
  - destruct (sanitize_dict_rebuilds colliding_strings eq_refl) as (sanitized & H & E & _).
    change (PyDict sanitized = PyDict [(py "a", PyStr (py "y"))]) in E.
    injection E as ->. exact H.
  - destruct (sanitize_dict_rebuilds untidy eq_refl)
      as (sanitized & H & _ & _ & _ & _ & _ & Hdist).
    exists sanitized. split; [exact H|]. exact (Hdist eq_refl).
Defined.

(** ** Failures of the gateway *)

Lemma store_events_app tr tr' : store_events (tr ++ tr') = store_events tr ++ store_events tr'.
Proof. apply filter_app. Qed.

Lemma store_events_sanitize stages : store_events (map EvSanitizeQuery stages) = [].
Proof. induction stages as [|stage stages IH]; simpl; [reflexivity | exact IH]. Qed.

Lemma sanitize_stages_ok pipeline :
  forall sanitized acc tr,
    comprehension InputSanitizer.sanitize_query pipeline = OK sanitized ->
    sanitize_stages pipeline acc tr
    = (tr ++ map EvSanitizeQuery pipeline, OK (acc ++ sanitized)).
Proof.
  induction pipeline as [|stage pipeline IH]; intros sanitized acc tr; simpl.
  - intros [= <-]. now rewrite !app_nil_r.
  - unfold bind, sanitize_query, observe.
    destruct (InputSanitizer.sanitize_query stage) as [d|e]; cbn [rbind]; [|discriminate].
    destruct (comprehension InputSanitizer.sanitize_query pipeline) as [ds|e] eqn:E;
      cbn [rbind]; [|discriminate].
    intros [= <-]. rewrite (IH ds _ _ eq_refl). now rewrite <- !app_assoc.
Qed.

Lemma sanitize_stages_raise pipeline :
  forall e acc tr,
    comprehension InputSanitizer.sanitize_query pipeline = Raise e ->
    exists n,
      sanitize_stages pipeline acc tr
      = (tr ++ map EvSanitizeQuery (firstn n pipeline), Raise e).
Proof.
  induction pipeline as [|stage pipeline IH]; intros e acc tr; simpl; [discriminate|].
  unfold bind, sanitize_query, observe.
  destruct (InputSanitizer.sanitize_query stage) as [d|e']; cbn [rbind].
  - destruct (comprehension InputSanitizer.sanitize_query pipeline) as [ds|e''] eqn:E;
      cbn [rbind]; [discriminate|].
    intros [= <-]. destruct (IH e'' (acc ++ [d]) (tr ++ [EvSanitizeQuery stage]) eq_refl)
      as [n Hn].
    exists (S n). rewrite Hn. simpl. now rewrite <- app_assoc.
  - intros [= <-]. exists 1%nat. reflexivity.
Qed.

Module GatewayFacts.

Lemma validate_query_raises query allow e :
  QueryValidator.validate_query query allow = Raise e -> gateway_class e.
Proof.
  unfold QueryValidator.validate_query. intros H.
  pose proof (ValidatorFacts.validate_dict_raises _ _ _ H) as Hc.
  destruct query; try (simpl in H; injection H as <-; exact I).
  destruct Hc as [msg ->]. exact I.
Qed.

Lemma validate_pipeline_raises pipeline allow max_stages e :
  AggregationValidator.validate_pipeline pipeline allow max_stages = Raise e ->
  gateway_class e.
Proof.
  intros H.
  destruct (PipelineFacts.validate_pipeline_cases pipeline allow max_stages) as [E|[msg E]];
    rewrite E in H; [discriminate|]. injection H as <-. exact I.
Qed.

Lemma comprehension_sanitize_raises pipeline e :
  comprehension InputSanitizer.sanitize_query pipeline = Raise e -> gateway_class e.
Proof.
  intros H. apply comprehension_raise in H. destruct H as (stage & _ & H).
  eapply ClassFacts.sanitize_query_raises; eassumption.
Qed.

Lemma gateway_raises json_dumps allow t e :
  gateway json_dumps allow t = Raise e -> gateway_class e.
Proof.
  unfold gateway, require_dangerous.
  destruct t; destruct allow; cbn [negb rbind];
    try (intros [= <-]; exact I);
    repeat match goal with
      | |- context [QueryValidator.validate_query ?q ?a] =>
          let E := fresh "E" in
          destruct (QueryValidator.validate_query q a) as [[]|?] eqn:E; cbn [rbind];
          [|intros [= <-]; eapply validate_query_raises; eassumption]
      | |- context [InputSanitizer.sanitize_query ?q] =>
          lazymatch goal with
          | |- context [comprehension InputSanitizer.sanitize_query] => fail
          | _ => idtac
          end;
          let E := fresh "E" in
          destruct (InputSanitizer.sanitize_query q) as [?|?] eqn:E; cbn [rbind];
          [|intros [= <-]; eapply ClassFacts.sanitize_query_raises; eassumption]
      | |- context [InputSanitizer.sanitize_document ?j ?d] =>
          let E := fresh "E" in
          destruct (InputSanitizer.sanitize_document j d) as [?|?] eqn:E; cbn [rbind];
          [|intros [= <-]; eapply ClassFacts.sanitize_document_raises; eassumption]
      | |- context [AggregationValidator.validate_pipeline ?p ?a ?m] =>
          let E := fresh "E" in
          destruct (AggregationValidator.validate_pipeline p a m) as [[]|?] eqn:E; cbn [rbind];
          [|intros [= <-]; eapply validate_pipeline_raises; eassumption]
      | |- context [comprehension InputSanitizer.sanitize_query ?p] =>
          let E := fresh "E" in
          destruct (comprehension InputSanitizer.sanitize_query p) as [?|?] eqn:E; cbn [rbind];
          [|intros [= <-]; eapply comprehension_sanitize_raises; eassumption]
      end;
    try discriminate.
Qed.

End GatewayFacts.

(** Unfolds a handler down to the results of the validator, the sanitizer
    and the store. *)
Ltac unfold_handler :=
  unfold run, call_tool, find_documents, find_one_document, count_documents,
    insert_document, update_document, delete_document, aggregate_pipeline,
    explain_aggregation, create_index, try_except, bind, validate_query,
    validate_pipeline, sanitize_query, sanitize_document, store_call, observe,
    except_operation_failure, raise, ret.

(** C5, as stated, fails for [find_documents]: the validator refuses
    [{"$custom": 1}] with a [ValueError], no store call is made, and the
    caller receives a [RuntimeError]. *)
Lemma find_documents_changes_error_class :
  exists e r,
    gateway sample_json_dumps false find_custom = Raise e
    /\ class_of e = ClsValueError
    /\ run (call_tool empty_store sample_json_dumps sample_str false find_custom)
       = ([EvValidateQuery (PyDict [(py "$custom", PyInt 1)])], Raise r)
    /\ class_of r = ClsRuntimeError
    /\ class_of r <> class_of e.
Proof.
  do 2 eexists. split; [reflexivity|]. split; [reflexivity|].
  split; [reflexivity|]. split; [reflexivity|]. discriminate.
Qed.

(** C5, amended. When the dangerous-mode gate, the validator or the
    sanitizer raises [e] for an operation, the handler makes no call to the
    store and the caller receives a failure, never a result: [e] itself, with
    its class, from every operation but [find_documents] and
    [aggregate_pipeline], whose [except Exception] clause re-raises it as a
    [RuntimeError] that carries the message of [e]. *)
Theorem gateway_failure_reaches_caller
    (store : forall T, Motor.call T -> result T) (json_dumps builtin_str : pyobj -> pystr)
    (allow_dangerous : bool) (t : tool) (e : exn) :
  gateway json_dumps allow_dangerous t = Raise e ->
  exists tr,
    run (call_tool store json_dumps builtin_str allow_dangerous t) = (tr, Raise (reported t e))
    /\ store_events tr = [].
Proof.
  intros Hg. pose proof (GatewayFacts.gateway_raises _ _ _ _ Hg) as Hc.
  revert Hg. unfold gateway, require_dangerous, reported.
  destruct t; cbn [catches_all].
  - (* find_documents *)
    unfold_handler.
    destruct (QueryValidator.validate_query (default_query query) allow_dangerous)
      as [[]|e1]; cbn [rbind].
    + destruct (InputSanitizer.sanitize_query (default_query query)) as [q|e2]; cbn [rbind];
        [discriminate|].
      intros [= <-]. destruct e2; try contradiction; eexists; split; reflexivity.
    + intros [= <-]. destruct e1; try contradiction; eexists; split; reflexivity.
  - (* find_one_document *)
    unfold_handler.
    destruct (QueryValidator.validate_query (default_query query) allow_dangerous)
      as [[]|e1]; cbn [rbind].
    + destruct (InputSanitizer.sanitize_query (default_query query)) as [q|e2]; cbn [rbind];
        [discriminate|].
      intros [= <-]. destruct e2; try contradiction; eexists; split; reflexivity.
    + intros [= <-]. destruct e1; try contradiction; eexists; split; reflexivity.
  - (* count_documents *)
    unfold_handler.
    destruct (QueryValidator.validate_query (default_query query) allow_dangerous)
      as [[]|e1]; cbn [rbind].
    + destruct (InputSanitizer.sanitize_query (default_query query)) as [q|e2]; cbn [rbind];
        [discriminate|].
      intros [= <-]. destruct e2; try contradiction; eexists; split; reflexivity.
    + intros [= <-]. destruct e1; try contradiction; eexists; split; reflexivity.
  - (* insert_document *)
    unfold_handler. destruct allow_dangerous; cbn [negb rbind].
    + destruct (InputSanitizer.sanitize_document json_dumps document) as [d|e1]; cbn [rbind];
        [discriminate|].
      intros [= <-]. destruct e1; try contradiction; eexists; split; reflexivity.
    + intros [= <-]. eexists; split; reflexivity.
  - (* update_document *)
    unfold_handler. destruct allow_dangerous; cbn [negb rbind].
    + destruct (QueryValidator.validate_query query true) as [[]|e1]; cbn [rbind].
      * destruct (InputSanitizer.sanitize_query query) as [q|e2]; cbn [rbind].
        -- destruct (InputSanitizer.sanitize_document json_dumps update) as [d|e3];
             cbn [rbind]; [discriminate|].
           intros [= <-]. destruct e3; try contradiction; eexists; split; reflexivity.
        -- intros [= <-]. destruct e2; try contradiction; eexists; split; reflexivity.
      * intros [= <-]. destruct e1; try contradiction; eexists; split; reflexivity.
    + intros [= <-]. eexists; split; reflexivity.
  - (* delete_document *)
    unfold_handler. destruct allow_dangerous; cbn [negb rbind].
    + destruct (QueryValidator.validate_query query true) as [[]|e1]; cbn [rbind].
      * destruct (InputSanitizer.sanitize_query query) as [q|e2]; cbn [rbind]; [discriminate|].
        intros [= <-]. destruct e2; try contradiction; eexists; split; reflexivity.
      * intros [= <-]. destruct e1; try contradiction; eexists; split; reflexivity.
    + intros [= <-]. eexists; split; reflexivity.
  - (* aggregate_pipeline *)
    unfold_handler.
    destruct (AggregationValidator.validate_pipeline pipeline allow_dangerous max_stages)
      as [[]|e1]; cbn [rbind].
    + destruct (comprehension InputSanitizer.sanitize_query pipeline) as [sp|e2] eqn:Es;
        cbn [rbind]; [discriminate|].
      intros [= <-].
      destruct (sanitize_stages_raise pipeline e2 [] [EvValidatePipeline pipeline] Es)
        as [n Hn].
      cbn [app]. rewrite Hn.
      destruct e2; try contradiction; eexists; (split; [reflexivity|]);
        rewrite store_events_app, store_events_sanitize; reflexivity.
    + intros [= <-]. destruct e1; try contradiction; eexists; split; reflexivity.
  - (* explain_aggregation *)
    unfold_handler.
    destruct (AggregationValidator.validate_pipeline pipeline allow_dangerous 20)
      as [[]|e1]; [discriminate|].
    intros [= <-]. destruct e1; try contradiction; eexists; split; reflexivity.
  - (* create_index *)
    unfold_handler. destruct allow_dangerous; cbn [negb]; [discriminate|].
    intros [= <-]. eexists; split; reflexivity.
Qed.

Lemma gateway_failure_witness :
  gateway sample_json_dumps false find_custom
  = Raise (ValueError (py "Unknown or forbidden operator: $custom"))
  /\ exists tr,
       run (call_tool empty_store sample_json_dumps sample_str false find_custom)
       = (tr, Raise (RuntimeError
                       (py "Find operation failed: Unknown or forbidden operator: $custom")))
       /\ store_events tr = [].
Proof.
  split; [reflexivity|].
  exact (gateway_failure_reaches_caller empty_store sample_json_dumps sample_str false
           find_custom (ValueError (py "Unknown or forbidden operator: $custom")) eq_refl).
Defined.

(** ** The implicit limiting stage *)

Module LimitFacts.
Import InputSanitizer.

Lemma listed_name_clean name allow :
  listed name allow -> sanitize_string (PyStr name) = OK name.
Proof.
  intros [H|[H _]]; simpl in H;
    repeat (destruct H as [<-|H]; [reflexivity|]); contradiction.
Qed.

Lemma sanitize_stage_keys name body allow d :
  listed name allow ->
  sanitize_query (PyDict [(name, body)]) = OK d ->
  dict_keys d = [name].
Proof.
  intros Hname. unfold sanitize_query.
  destruct (_check_depth (PyDict [(name, body)]) 0) as [[]|]; cbn [rbind]; [|discriminate].
  rewrite StructureFacts.sanitize_dict_by_value, for_each_acc_cons.
  rewrite (listed_name_clean _ _ Hname). cbn [rbind].
  destruct (sanitize_value body) as [v|]; cbn [rbind]; [|discriminate].
  simpl. now intros [= <-].
Qed.

(** Sanitising a validated pipeline neither adds nor removes a [$limit]
    stage. *)
Lemma has_limit_sanitized pipeline allow :
  Forall (fun stage => exists name body,
            stage = PyDict [(name, body)] /\ listed name allow) pipeline ->
  forall sanitized,
    comprehension sanitize_query pipeline = OK sanitized ->
    has_limit sanitized = pipeline_has_limit pipeline.
Proof.
  induction 1 as [|stage pipeline (name & body & -> & Hname) Hrest IH]; intros sanitized.
  - simpl. now intros [= <-].
  - cbn [comprehension].
    destruct (sanitize_query (PyDict [(name, body)])) as [d|] eqn:Ed; cbn [rbind];
      [|discriminate].
    fold (comprehension sanitize_query pipeline).
    destruct (comprehension sanitize_query pipeline) as [ds|] eqn:Eds; cbn [rbind];
      [|discriminate].
    intros [= <-]. unfold has_limit, pipeline_has_limit. cbn [existsb].
    fold (has_limit ds). fold (pipeline_has_limit pipeline).
    rewrite (IH ds eq_refl). f_equal.
    unfold dict_contains. now rewrite (sanitize_stage_keys _ _ _ _ Hname Ed).
Qed.

End LimitFacts.

(** What [aggregate_pipeline] does with a pipeline that passes the validator
    and the sanitizer. *)
Lemma aggregate_pipeline_run
    (store : forall T, Motor.call T -> result T) (builtin_str : pyobj -> pystr)
    (allow : bool) (db coll : pystr) (pipeline : list pyobj) (limit max_stages : Z)
    (sanitized : list dict) :
  AggregationValidator.validate_pipeline pipeline allow max_stages = OK tt ->
  comprehension InputSanitizer.sanitize_query pipeline = OK sanitized ->
  forall dispatched,
    dispatched = (if negb (has_limit sanitized) && (limit >? 0)%Z
                  then sanitized ++ [limit_stage limit] else sanitized) ->
    run (aggregate_pipeline store builtin_str allow db coll pipeline limit max_stages)
    = (aggregation_trace db coll pipeline dispatched,
       match store _ (Motor.aggregate db coll (map PyDict dispatched)) with
       | OK results =>
           OK (PyDict [(py "results", PyList (map PyDict (map (convert_id builtin_str) results)));
                       (py "count", PyInt (len (map (convert_id builtin_str) results)));
                       (py "pipeline", PyList (map PyDict dispatched));
                       (py "hasMore",
                         PyBool (len (map (convert_id builtin_str) results) =? limit)%Z)])
       | Raise e =>
           Raise (match e with
                  | OperationFailure _ =>
                      RuntimeError (py "Aggregation failed: " ++ str_of_exn e)
                  | _ => RuntimeError (py "Pipeline execution failed: " ++ str_of_exn e)
                  end)
       end).
Proof.
  intros Hv Hs dispatched ->. unfold_handler. rewrite Hv. cbn [app].
  rewrite (sanitize_stages_ok pipeline sanitized [] [EvValidatePipeline pipeline] Hs). cbn [app].
  unfold aggregation_trace, limit_stage.
  destruct (negb (has_limit sanitized) && (limit >? 0)%Z); cbv beta iota delta [dict];
    match goal with
    | |- context [store ?T ?c] => destruct (store T c) as [results|[]]
    end; reflexivity.
Qed.

(** C9. For a pipeline that passes validation (and sanitisation) and has no
    stage with a [$limit] key, [aggregate_pipeline] called with the default
    bound 100 validates, sanitizes each stage, and then hands the store the
    sanitized pipeline followed by the one stage [{"$limit": 100}], the only
    [$limit] stage of what is dispatched; a pipeline that already has a
    [$limit] stage is dispatched as sanitized, with nothing appended. *)
Theorem implicit_limit_stage_appended
    (store : forall T, Motor.call T -> result T) (builtin_str : pyobj -> pystr)
    (allow_dangerous : bool) (database collection : pystr) (pipeline : list pyobj)
    (max_stages : Z) (sanitized : list dict) :
  AggregationValidator.validate_pipeline pipeline allow_dangerous max_stages = OK tt ->
  comprehension InputSanitizer.sanitize_query pipeline = OK sanitized ->
  (pipeline_has_limit pipeline = false ->
   fst (run (aggregate_pipeline store builtin_str allow_dangerous database collection
               pipeline 100 max_stages))
   = aggregation_trace database collection pipeline (sanitized ++ [limit_stage 100])
   /\ count_limit_stages (sanitized ++ [limit_stage 100]) = 1%nat)
  /\ (pipeline_has_limit pipeline = true ->
      fst (run (aggregate_pipeline store builtin_str allow_dangerous database collection
                  pipeline 100 max_stages))
      = aggregation_trace database collection pipeline sanitized).
Proof.
  intros Hv Hs.
  pose proof (proj2 (proj1 (PipelineFacts.validate_pipeline_ok _ _ _) Hv)) as Hstages.
  pose proof (LimitFacts.has_limit_sanitized _ _ Hstages _ Hs) as Hlim.
  split; intros Hp; rewrite Hp in Hlim.
  - rewrite (aggregate_pipeline_run store builtin_str allow_dangerous database collection
               pipeline 100 max_stages sanitized Hv Hs (sanitized ++ [limit_stage 100])).
    + split; [reflexivity|].
      unfold count_limit_stages. rewrite filter_app, length_app.
      unfold has_limit in Hlim.
      assert (Hnone : filter (dict_contains (py "$limit")) sanitized = []).
      { clear -Hlim. induction sanitized as [|d ds IH]; [reflexivity|].
        simpl in Hlim. apply orb_false_iff in Hlim. destruct Hlim as [Hd Hds].
        simpl. rewrite Hd. now apply IH. }
      rewrite Hnone. reflexivity.
    + rewrite Hlim. reflexivity.
  - rewrite (aggregate_pipeline_run store builtin_str allow_dangerous database collection
               pipeline 100 max_stages sanitized Hv Hs sanitized).
    + reflexivity.
    + rewrite Hlim. reflexivity.
Qed.

(** C10. With [limit <= 0], a pipeline that passes validation (and
    sanitisation) and has no stage with a [$limit] key is dispatched as
    sanitized, with no [$limit] stage at all; and with [limit = 0], when the
    store returns no document, the result reports an empty result set with
    [hasMore = true]. *)
Theorem no_implicit_limit_without_positive_limit
    (store : forall T, Motor.call T -> result T) (builtin_str : pyobj -> pystr)
    (allow_dangerous : bool) (database collection : pystr) (pipeline : list pyobj)
    (limit max_stages : Z) (sanitized : list dict) :
  (limit <= 0)%Z ->
  AggregationValidator.validate_pipeline pipeline allow_dangerous max_stages = OK tt ->
  comprehension InputSanitizer.sanitize_query pipeline = OK sanitized ->
  pipeline_has_limit pipeline = false ->
  fst (run (aggregate_pipeline store builtin_str allow_dangerous database collection
              pipeline limit max_stages))
  = aggregation_trace database collection pipeline sanitized
  /\ count_limit_stages sanitized = 0%nat
  /\ (limit = 0%Z ->
      store _ (Motor.aggregate database collection (map PyDict sanitized)) = OK [] ->
      snd (run (aggregate_pipeline store builtin_str allow_dangerous database collection
                  pipeline limit max_stages))
      = OK (PyDict [(py "results", PyList []);
                    (py "count", PyInt 0);
                    (py "pipeline", PyList (map PyDict sanitized));
                    (py "hasMore", PyBool true)])).
Proof.
  intros Hlimit Hv Hs Hp.
  pose proof (proj2 (proj1 (PipelineFacts.validate_pipeline_ok _ _ _) Hv)) as Hstages.
  pose proof (LimitFacts.has_limit_sanitized _ _ Hstages _ Hs) as Hlim.
  rewrite Hp in Hlim.
  rewrite (aggregate_pipeline_run store builtin_str allow_dangerous database collection
             pipeline limit max_stages sanitized Hv Hs sanitized).
  2:{ destruct (limit >? 0)%Z eqn:E; [zbool; lia|]. now rewrite andb_false_r. }
  split; [reflexivity|]. split.
  - unfold count_limit_stages. unfold has_limit in Hlim.
    clear -Hlim. induction sanitized as [|d ds IH]; [reflexivity|].
    simpl in Hlim. apply orb_false_iff in Hlim. destruct Hlim as [Hd Hds].
    simpl. rewrite Hd. now apply IH.
  - intros -> Hempty. cbn [snd]. rewrite Hempty. reflexivity.
Qed.

Lemma implicit_limit_stage_appended_witness :
  AggregationValidator.validate_pipeline match_active false 20 = OK tt
  /\ comprehension InputSanitizer.sanitize_query match_active = OK match_active_sanitized
  /\ pipeline_has_limit match_active = false
  /\ fst (run (aggregate_pipeline empty_store sample_str false (py "shop") (py "orders")
                 match_active 100 20))
     = aggregation_trace (py "shop") (py "orders") match_active
         (match_active_sanitized ++ [limit_stage 100])
  /\ count_limit_stages (match_active_sanitized ++ [limit_stage 100]) = 1%nat.
Proof.
  split; [reflexivity|]. split; [reflexivity|]. split; [reflexivity|].
  exact (proj1 (implicit_limit_stage_appended empty_store sample_str false
                  (py "shop") (py "orders") match_active 20 match_active_sanitized
                  eq_refl eq_refl) eq_refl).
Defined.

Lemma no_implicit_limit_witness :
  (0 <= 0)%Z
  /\ AggregationValidator.validate_pipeline match_active false 20 = OK tt
  /\ comprehension InputSanitizer.sanitize_query match_active = OK match_active_sanitized
  /\ pipeline_has_limit match_active = false
  /\ fst (run (aggregate_pipeline empty_store sample_str false (py "shop") (py "orders")
                 match_active 0 20))
     = aggregation_trace (py "shop") (py "orders") match_active match_active_sanitized
  /\ snd (run (aggregate_pipeline empty_store sample_str false (py "shop") (py "orders")
                 match_active 0 20))
     = OK (PyDict [(py "results", PyList []);
                   (py "count", PyInt 0);
                   (py "pipeline", PyList (map PyDict match_active_sanitized));
                   (py "hasMore", PyBool true)]).
Proof.
  split; [lia|]. split; [reflexivity|]. split; [reflexivity|]. split; [reflexivity|].
  pose proof (no_implicit_limit_without_positive_limit empty_store sample_str false
                (py "shop") (py "orders") match_active 0 20 match_active_sanitized
                (Z.le_refl 0) eq_refl eq_refl eq_refl) as [Htrace [_ Hresult]].
  split; [exact Htrace | exact (Hresult eq_refl eq_refl)].
Defined.

(** * Further properties *)

(** ** What [sanitize_string] returns *)

Lemma rev_strip_head_kept s : head_kept (rev (InputSanitizer.strip s)).
Proof.
  unfold InputSanitizer.strip, InputSanitizer.rstrip. rewrite rev_involutive.
  apply SanitizerFacts.lstrip_head_kept.
Qed.

Lemma rstrip_fixed s : head_kept (rev s) -> InputSanitizer.rstrip s = s.
Proof.
  intros H. unfold InputSanitizer.rstrip.
  rewrite (SanitizerFacts.lstrip_fixed _ H). apply rev_involutive.
Qed.

Lemma clean_fixed s : no_control s -> head_kept s -> head_kept (rev s) -> clean s = s.
Proof.
  intros Hc Hh Ht. unfold clean, InputSanitizer.strip.
  rewrite (SanitizerFacts.remove_control_fixed _ Hc).
  rewrite (SanitizerFacts.lstrip_fixed _ Hh). now apply rstrip_fixed.
Qed.

Lemma clean_is_clean s : no_control (clean s) /\ head_kept (clean s) /\ head_kept (rev (clean s)).
Proof.
  unfold clean. split; [|split].
  - apply SanitizerFacts.strip_no_control, SanitizerFacts.remove_control_no_control.
  - apply SanitizerFacts.rstrip_head_kept, SanitizerFacts.lstrip_head_kept.
  - apply rev_strip_head_kept.
Qed.

(** X1. What [sanitize_string] returns holds no control character of the
    stripped class, neither starts nor ends with a character [str.strip]
    removes, and is no longer than the input, which had at most 1000
    characters. *)
Theorem sanitize_string_output (value : pyobj) (t : pystr) :
  InputSanitizer.sanitize_string value = OK t ->
  no_control t /\ head_kept t /\ head_kept (rev t)
  /\ exists s, value = PyStr s
               /\ (List.length t <= List.length s)%nat
               /\ (List.length s <= 1000)%nat.
Proof.
  destruct value as [| | | |s| | | | |]; try discriminate.
  rewrite SanitizerFacts.sanitize_string_str.
  destruct (within_limit s) eqn:L; [|discriminate]. intros [= <-].
  destruct (clean_is_clean s) as (H1 & H2 & H3).
  repeat split; try assumption.
  exists s. split; [reflexivity|]. split; [apply SanitizerFacts.clean_length|].
  unfold within_limit, InputSanitizer.MAX_STRING_LENGTH in L.
  apply negb_true_iff in L. zbool. lia.
Qed.

Lemma sanitize_string_output_witness :
  InputSanitizer.sanitize_string (PyStr (9%N :: py " a" ++ [0%N] ++ py "b  ")) = OK (py "ab")
  /\ no_control (py "ab") /\ head_kept (py "ab") /\ head_kept (rev (py "ab")).
Proof.
  split; [reflexivity|].
  destruct (sanitize_string_output (PyStr (9%N :: py " a" ++ [0%N] ++ py "b  ")) (py "ab")
              eq_refl) as (H1 & H2 & H3 & _).
  repeat split; assumption.
Defined.

(** X2. [sanitize_string] returns a string unchanged exactly when it has at
    most 1000 characters, holds no control character of the stripped class
    and neither starts nor ends with a character [str.strip] removes. *)
Theorem sanitize_string_fixed_points (s : pystr) :
  InputSanitizer.sanitize_string (PyStr s) = OK s <->
  within_limit s = true /\ no_control s /\ head_kept s /\ head_kept (rev s).
Proof.
  rewrite SanitizerFacts.sanitize_string_str. split.
  - destruct (within_limit s); [|discriminate]. intros [= E].
    split; [reflexivity|]. rewrite <- E. apply clean_is_clean.
  - intros (-> & Hc & Hh & Ht). now rewrite clean_fixed.
Qed.

(** ** What the structure sanitizer returns *)

Lemma map_fixed {A} (f : A -> A) l : Forall (fun x => f x = x) l -> map f l = l.
Proof. induction 1 as [|x l Hx Hl IH]; simpl; [reflexivity | now rewrite Hx, IH]. Qed.

Lemma rebuilt_dict items : rebuilt (PyDict items) = PyDict (rebuilt_items items).
Proof. reflexivity. Qed.

Lemma rebuilt_list elems :
  rebuilt (PyList elems) =
  PyList (map (fun item =>
                 match item with
                 | PyStr s => PyStr (clean s)
                 | PyDict _ => rebuilt item
                 | _ => item
                 end) elems).
Proof. reflexivity. Qed.

(** A structure whose inspected strings are clean is rebuilt as itself. *)
Lemma rebuilt_fixed value : strings_clean value = true -> rebuilt value = value.
Proof.
  induction value as [| | | |s| | | |items IH|items IH] using pyobj_ind; intros H;
    try reflexivity.
  - simpl in *. apply str_eqb_eq in H. now rewrite H.
  - rewrite rebuilt_list. f_equal. apply map_fixed.
    cbn [strings_clean] in H. rewrite forallb_forall in H. rewrite Forall_forall in *.
    intros item Hin. specialize (H _ Hin). specialize (IH _ Hin).
    destruct item; try reflexivity.
    + apply str_eqb_eq in H. now rewrite H.
    + now apply IH.
  - rewrite rebuilt_dict. f_equal. unfold rebuilt_items. apply map_fixed.
    cbn [strings_clean] in H. rewrite forallb_forall in H. rewrite Forall_forall in *.
    intros [k v] Hin. specialize (H _ Hin). specialize (IH _ Hin). cbn [snd] in IH.
    apply andb_true_iff in H. destruct H as [Hk Hv].
    apply str_eqb_eq in Hk. now rewrite Hk, IH.
Qed.

(** What is rebuilt has only clean strings where the sanitizer looks. *)
Lemma rebuilt_strings_clean value : strings_clean (rebuilt value) = true.
Proof.
  induction value as [| | | |s| | | |items IH|items IH] using pyobj_ind; try reflexivity.
  - apply MergeFacts.is_clean_clean.
  - rewrite rebuilt_list. cbn [strings_clean]. rewrite forallb_forall.
    intros x Hx. apply in_map_iff in Hx. destruct Hx as (item & <- & Hin).
    rewrite Forall_forall in IH. specialize (IH _ Hin).
    destruct item; try reflexivity.
    + apply MergeFacts.is_clean_clean.
    + rewrite rebuilt_dict in *. exact IH.
  - rewrite rebuilt_dict. cbn [strings_clean]. rewrite forallb_forall.
    intros x Hx. apply in_map_iff in Hx. destruct Hx as ([k v] & <- & Hin).
    rewrite Forall_forall in IH. specialize (IH _ Hin). cbn [snd] in IH.
    now rewrite MergeFacts.is_clean_clean, IH.
Qed.

Lemma rebuilt_within_limit value :
  strings_within_limit value = true -> strings_within_limit (rebuilt value) = true.
Proof.
  induction value as [| | | |s| | | |items IH|items IH] using pyobj_ind; intros H;
    try reflexivity.
  - now apply SanitizerFacts.within_limit_clean.
  - rewrite rebuilt_list. cbn [strings_within_limit] in *. rewrite forallb_forall in *.
    intros x Hx. apply in_map_iff in Hx. destruct Hx as (item & <- & Hin).
    rewrite Forall_forall in IH. specialize (IH _ Hin). specialize (H _ Hin).
    destruct item; try reflexivity.
    + now apply SanitizerFacts.within_limit_clean.
    + rewrite rebuilt_dict in *. now apply IH.
  - rewrite rebuilt_dict. cbn [strings_within_limit] in *. rewrite forallb_forall in *.
    intros x Hx. apply in_map_iff in Hx. destruct Hx as ([k v] & <- & Hin).
    rewrite Forall_forall in IH. specialize (IH _ Hin). specialize (H _ Hin).
    cbn [snd] in IH. apply andb_true_iff in H. destruct H as [Hk Hv].
    now rewrite (SanitizerFacts.within_limit_clean _ Hk), IH.
Qed.

Lemma rebuilt_keys_distinct value :
  clean_keys_distinct value = true -> clean_keys_distinct (rebuilt value) = true.
Proof.
  induction value as [| | | |s| | | |items IH|items IH] using pyobj_ind; intros H;
    try reflexivity.
  - rewrite rebuilt_list. cbn [clean_keys_distinct] in *. rewrite forallb_forall in *.
    intros x Hx. apply in_map_iff in Hx. destruct Hx as (item & <- & Hin).
    rewrite Forall_forall in IH. specialize (IH _ Hin). specialize (H _ Hin).
    destruct item; try reflexivity. rewrite rebuilt_dict in *. now apply IH.
  - rewrite rebuilt_dict. cbn [clean_keys_distinct] in *.
    apply andb_true_iff in H. destruct H as [Hkeys Hvals].
    apply andb_true_iff. split.
    + unfold rebuilt_items. rewrite map_map.
      erewrite map_ext; [exact Hkeys|].
      intros [k v]. cbn [fst]. apply SanitizerFacts.clean_idem.
    + rewrite forallb_forall in *.
      intros x Hx. apply in_map_iff in Hx. destruct Hx as ([k v] & <- & Hin).
      rewrite Forall_forall in IH. specialize (IH _ Hin). cbn [snd] in IH.
      apply IH. exact (Hvals _ Hin).
Qed.

(** X3. An already clean mapping is returned as it came: when every string
    the sanitizer looks at is within the limit and is its own cleaned form,
    and the keys of each rebuilt mapping are distinct, [_sanitize_dict] returns
    the input mapping, keys, order and values unchanged. *)
Theorem sanitize_dict_clean_input (items : dict) :
  clean_keys_distinct (PyDict items) = true ->
  strings_within_limit (PyDict items) = true ->
  strings_clean (PyDict items) = true ->
  InputSanitizer._sanitize_dict (PyDict items) = OK items.
Proof.
  intros Hd Hl Hc.
  pose proof (StructureFacts.sanitize_dict_rebuilds_all (PyDict items) Hd) as H.
  rewrite Hl in H. rewrite H. f_equal.
  pose proof (rebuilt_fixed (PyDict items) Hc) as E. rewrite rebuilt_dict in E.
  now injection E.
Qed.

Lemma sanitize_dict_clean_input_witness :
  InputSanitizer._sanitize_dict (PyDict tidy) = OK tidy.
Proof.
  exact (sanitize_dict_clean_input tidy eq_refl eq_refl eq_refl).
Defined.

Lemma sanitize_dict_fixed (items : dict) :
  clean_keys_distinct (PyDict items) = true ->
  strings_within_limit (PyDict items) = true ->
  strings_clean (PyDict items) = true ->
  InputSanitizer._sanitize_dict (PyDict items) = OK items.
Proof.
  intros Hd Hl Hc.
  pose proof (StructureFacts.sanitize_dict_rebuilds_all (PyDict items) Hd) as H.
  rewrite Hl in H. rewrite H. f_equal.
  pose proof (rebuilt_fixed (PyDict items) Hc) as E. rewrite rebuilt_dict in E.
  now injection E.
Qed.

(** X4. The structure sanitizer is idempotent: when no two keys of one
    rebuilt mapping are cleaned to the same string, sanitising what
    [_sanitize_dict] returned returns it again unchanged. *)
Theorem sanitize_dict_idempotent (items sanitized : dict) :
  clean_keys_distinct (PyDict items) = true ->
  InputSanitizer._sanitize_dict (PyDict items) = OK sanitized ->
  InputSanitizer._sanitize_dict (PyDict sanitized) = OK sanitized.
Proof.
  intros Hd H.
  pose proof (StructureFacts.sanitize_dict_rebuilds_all (PyDict items) Hd) as E.
  rewrite H in E.
  destruct (strings_within_limit (PyDict items)) eqn:Hl; [|discriminate].
  injection E as ->.
  rewrite <- rebuilt_dict in *.
  apply sanitize_dict_fixed; rewrite <- rebuilt_dict.
  - now apply rebuilt_keys_distinct.
  - now apply rebuilt_within_limit.
  - apply rebuilt_strings_clean.
Qed.

Lemma sanitize_dict_idempotent_witness :
  InputSanitizer._sanitize_dict (PyDict untidy) = OK tidied
  /\ InputSanitizer._sanitize_dict (PyDict tidied) = OK tidied.
Proof.
  split; [reflexivity|].
  exact (sanitize_dict_idempotent untidy tidied eq_refl eq_refl).
Defined.

(** ** The order of the sanitizer's checks *)

Lemma check_depth_root obj :
  InputSanitizer._check_depth obj 0 =
  if Nat.leb (depth obj) 10 then OK tt else Raise depth_error.
Proof.
  rewrite DepthFacts.check_depth_spec.
  destruct (0 + Z.of_nat (depth obj) <=? 10)%Z eqn:E; zbool;
    destruct (Nat.leb (depth obj) 10) eqn:E'; try reflexivity.
  - apply Nat.leb_gt in E'. lia.
  - apply Nat.leb_le in E'. lia.
Qed.

Lemma sanitize_query_run (items : dict) :
  InputSanitizer.sanitize_query (PyDict items)
  = (if Nat.leb (depth (PyDict items)) 10
     then if strings_within_limit (PyDict items)
          then OK (sanitized_items items)
          else Raise length_error
     else Raise depth_error).
Proof.
  unfold InputSanitizer.sanitize_query. rewrite check_depth_root.
  destruct (Nat.leb (depth (PyDict items)) 10); cbn [rbind]; [|reflexivity].
  exact (MergeFacts.sanitize_dict_sanitizes_all (PyDict items)).
Qed.

(** X5. [sanitize_query] and [sanitize_document] make their checks in a
    fixed order and the first that fails decides the error, for every
    mapping: the serialized size (documents only), then the nesting depth,
    then the length of the strings; when all pass, the sanitized mapping is
    returned, which is the rebuilt mapping when no two keys of one mapping
    are cleaned to the same string. *)
Theorem sanitizer_checks_in_order (json_dumps : pyobj -> pystr) (items : dict) :
  InputSanitizer.sanitize_query (PyDict items)
  = (if Nat.leb (depth (PyDict items)) 10
     then if strings_within_limit (PyDict items)
          then OK (sanitized_items items)
          else Raise length_error
     else Raise depth_error)
  /\ InputSanitizer.sanitize_document json_dumps (PyDict items)
     = (if (Z.of_nat (List.length (json_dumps (PyDict items))) >? 16777216)%Z
        then Raise (ValueError
                      (py "Document size "
                         ++ str_of_int (Z.of_nat (List.length (json_dumps (PyDict items))))
                         ++ py " exceeds limit 16777216"))
        else if Nat.leb (depth (PyDict items)) 10
        then if strings_within_limit (PyDict items)
             then OK (sanitized_items items)
             else Raise length_error
        else Raise depth_error)
  /\ (clean_keys_distinct (PyDict items) = true ->
      sanitized_items items = rebuilt_items items).
Proof.
  split; [apply sanitize_query_run|]. split; [|apply MergeFacts.sanitized_items_rebuilt].
  unfold InputSanitizer.sanitize_document.
  change InputSanitizer.MAX_DOCUMENT_SIZE with 16777216%Z.
  destruct (Z.of_nat (List.length (json_dumps (PyDict items))) >? 16777216)%Z.
  - reflexivity.
  - apply sanitize_query_run.
Qed.

(** [{"a": <depth 11>, " a": 1}], whose keys collide: the depth decides. *)
Lemma sanitizer_checks_in_order_witness :
  InputSanitizer.sanitize_query (PyDict colliding_deep) = Raise depth_error
  /\ InputSanitizer.sanitize_document sample_json_dumps (PyDict colliding_deep)
     = Raise depth_error.
Proof.
  destruct (sanitizer_checks_in_order sample_json_dumps colliding_deep) as (Hq & Hdoc & _).
  split; [exact Hq | exact Hdoc].
Defined.

Lemma depth_list items :
  depth (PyList items) =
  match items with
  | [] => 0%nat
  | _ => S (list_max (map depth items))
  end.
Proof. destruct items; reflexivity. Qed.

Lemma depth_dict items :
  depth (PyDict items) =
  match items with
  | [] => 0%nat
  | _ => S (list_max (map (fun kv => depth (snd kv)) items))
  end.
Proof. destruct items; reflexivity. Qed.

(** Rebuilding a structure keeps its nesting depth. *)
Lemma depth_rebuilt value : depth (rebuilt value) = depth value.
Proof.
  induction value as [| | | |s| | | |items IH|items IH] using pyobj_ind; try reflexivity.
  - rewrite rebuilt_list, !depth_list.
    match goal with
    | |- context [map depth (map ?f items)] =>
        assert (Hm : map depth (map f items) = map depth items)
    end.
    { rewrite map_map. apply map_ext_in.
      intros item Hin. rewrite Forall_forall in IH. specialize (IH _ Hin).
      destruct item; try reflexivity. exact IH. }
    rewrite Hm. destruct items; reflexivity.
  - rewrite rebuilt_dict, !depth_dict. unfold rebuilt_items.
    match goal with
    | |- context [map ?d (map ?f items)] =>
        assert (Hm : map d (map f items) = map d items)
    end.
    { rewrite map_map. apply map_ext_in.
      intros [k v] Hin. rewrite Forall_forall in IH. exact (IH _ Hin). }
    rewrite Hm. destruct items as [|[k v] items]; reflexivity.
Qed.

(** X6. Sanitising keeps the nesting depth: the mapping [sanitize_query]
    returns has the depth of the query, which is at most 10 (for a query no
    two keys of one mapping of which are cleaned to the same string). *)
Theorem sanitize_query_keeps_depth (items sanitized : dict) :
  clean_keys_distinct (PyDict items) = true ->
  InputSanitizer.sanitize_query (PyDict items) = OK sanitized ->
  depth (PyDict sanitized) = depth (PyDict items) /\ (depth (PyDict items) <= 10)%nat.
Proof.
  intros Hd H.
  rewrite sanitize_query_run, (MergeFacts.sanitized_items_rebuilt items Hd) in H.
  destruct (Nat.leb (depth (PyDict items)) 10) eqn:E; [|discriminate].
  destruct (strings_within_limit (PyDict items)); [|discriminate].
  injection H as <-. split; [|now apply Nat.leb_le].
  rewrite <- rebuilt_dict. apply depth_rebuilt.
Qed.

Lemma sanitize_query_keeps_depth_witness :
  InputSanitizer.sanitize_query (PyDict untidy) = OK tidied
  /\ depth (PyDict tidied) = depth (PyDict untidy)
  /\ (depth (PyDict untidy) <= 10)%nat.
Proof.
  split; [reflexivity|].
  exact (sanitize_query_keeps_depth untidy tidied eq_refl eq_refl).
Defined.

(** ** Verdicts of the validators *)

(** X7. [validate_pipeline] accepts a pipeline exactly when it has at most
    [max_stages] stages and each stage is a mapping with exactly one key,
    which is in [SAFE_STAGES], or in [DANGEROUS_STAGES] when dangerous mode is
    on. *)
Theorem validate_pipeline_accepts_iff (pipeline : list pyobj) (allow_dangerous : bool)
    (max_stages : Z) :
  AggregationValidator.validate_pipeline pipeline allow_dangerous max_stages = OK tt <->
  (Z.of_nat (List.length pipeline) <= max_stages)%Z
  /\ Forall (fun stage => exists name body,
               stage = PyDict [(name, body)] /\ listed name allow_dangerous) pipeline.
Proof.
  split; intros H.
  - apply PipelineFacts.validate_pipeline_ok in H. exact H.
  - apply PipelineFacts.validate_pipeline_ok. exact H.
Qed.

(** X8. Dangerous mode only widens what the query validator accepts: a
    query accepted with [allow_dangerous = false] is accepted with
    [allow_dangerous = true]. *)
Theorem validate_query_safe_implies_dangerous (query : pyobj) :
  QueryValidator.validate_query query false = OK tt ->
  QueryValidator.validate_query query true = OK tt.
Proof.
  destruct query as [| | | | | | | | |d]; try discriminate.
  rewrite !ValidatorFacts.validate_query_ok_iff. intros H k Hk.
  apply ValidatorFacts.check_key_dangerous_mode. intros Hop. left.
  exact (proj1 (ValidatorFacts.check_key_safe_mode k) (H k Hk) Hop).
Qed.

Lemma validate_query_safe_implies_dangerous_witness :
  QueryValidator.validate_query (PyDict tidy) false = OK tt
  /\ QueryValidator.validate_query (PyDict tidy) true = OK tt.
Proof.
  split; [reflexivity|].
  exact (validate_query_safe_implies_dangerous (PyDict tidy) eq_refl).
Defined.

(** X9. Dangerous mode only widens what the pipeline validator accepts: a
    pipeline accepted with [allow_dangerous = false] is accepted with
    [allow_dangerous = true] under the same stage limit. *)
Theorem validate_pipeline_safe_implies_dangerous (pipeline : list pyobj) (max_stages : Z) :
  AggregationValidator.validate_pipeline pipeline false max_stages = OK tt ->
  AggregationValidator.validate_pipeline pipeline true max_stages = OK tt.
Proof.
  rewrite !PipelineFacts.validate_pipeline_ok. intros [Hlen Hall]. split; [exact Hlen|].
  eapply Forall_impl; [|exact Hall].
  intros stage (name & body & -> & [Hs|[_ Hf]]); [|discriminate].
  exists name, body. split; [reflexivity | now left].
Qed.

Lemma validate_pipeline_safe_implies_dangerous_witness :
  AggregationValidator.validate_pipeline match_active false 20 = OK tt
  /\ AggregationValidator.validate_pipeline match_active true 20 = OK tt.
Proof.
  split; [reflexivity|].
  exact (validate_pipeline_safe_implies_dangerous match_active 20 eq_refl).
Defined.

(** X10. With [allow_dangerous = false] the query validator accepts a query
    exactly when every operator-prefixed key it inspects is in
    [SAFE_QUERY_OPERATORS]; keys without the prefix and all values that are
    not mappings (or sequences of mappings) play no part. *)
Theorem validate_query_safe_mode_iff (d : dict) :
  QueryValidator.validate_query (PyDict d) false = OK tt <->
  forall k, inspects d k -> is_operator k = true -> In k QueryValidator.SAFE_QUERY_OPERATORS.
Proof.
  rewrite ValidatorFacts.validate_query_ok_iff. split.
  - intros H k Hk. apply ValidatorFacts.check_key_safe_mode. now apply H.
  - intros H k Hk. apply ValidatorFacts.check_key_safe_mode. now apply H.
Qed.

Lemma check_stages_app pipeline rest allow :
  Forall (fun stage => exists name body, stage = PyDict [(name, body)] /\ listed name allow)
    pipeline ->
  forall i,
    AggregationValidator.check_stages i (pipeline ++ rest) allow
    = AggregationValidator.check_stages (i + Z.of_nat (List.length pipeline)) rest allow.
Proof.
  induction 1 as [|stage pipeline Hs Hp IH]; intros i.
  - simpl. now rewrite Z.add_0_r.
  - cbn [app AggregationValidator.check_stages].
    rewrite (proj2 (PipelineFacts.check_stage_ok i stage allow) Hs). cbn [rbind].
    rewrite IH. f_equal. cbn [List.length]. lia.
Qed.

(** X11. The rejection names the first offending stage: when the stages
    before it pass and the pipeline is within the stage limit, a one-key
    stage named in [DANGEROUS_STAGES] is refused in safe mode with "Dangerous
    stage '<name>' not allowed in safe mode", and one named in neither list is
    refused in either mode with "Unknown or forbidden stage: <name>". *)
Theorem first_offending_stage_is_named (before after : list pyobj) (name : pystr)
    (body : pyobj) (allow_dangerous : bool) (max_stages : Z) :
  Forall (fun stage => exists n b, stage = PyDict [(n, b)] /\ listed n allow_dangerous)
    before ->
  (Z.of_nat (List.length (before ++ PyDict [(name, body)] :: after)) <= max_stages)%Z ->
  (In name AggregationValidator.DANGEROUS_STAGES -> allow_dangerous = false ->
   AggregationValidator.validate_pipeline (before ++ PyDict [(name, body)] :: after)
     allow_dangerous max_stages
   = Raise (ValueError (py "Dangerous stage '" ++ name ++ py "' not allowed in safe mode")))
  /\ (~ In name AggregationValidator.SAFE_STAGES ->
      ~ In name AggregationValidator.DANGEROUS_STAGES ->
      AggregationValidator.validate_pipeline (before ++ PyDict [(name, body)] :: after)
        allow_dangerous max_stages
      = Raise (ValueError (py "Unknown or forbidden stage: " ++ name))).
Proof.
  intros Hbefore Hlen.
  assert (Hrun : AggregationValidator.validate_pipeline
                   (before ++ PyDict [(name, body)] :: after) allow_dangerous max_stages
                 = AggregationValidator.check_stage (0 + Z.of_nat (List.length before))
                     (PyDict [(name, body)]) allow_dangerous ;;;
                   AggregationValidator.check_stages
                     (0 + Z.of_nat (List.length before) + 1) after allow_dangerous).
  { unfold AggregationValidator.validate_pipeline.
    destruct (Z.of_nat (List.length (before ++ PyDict [(name, body)] :: after)) >? max_stages)%Z
      eqn:E; [zbool; lia|].
    rewrite (check_stages_app before _ allow_dangerous Hbefore). reflexivity. }
  rewrite Hrun. unfold AggregationValidator.check_stage.
  cbn [List.length Nat.eqb negb dict_keys map fst].
  split.
  - intros Hd ->. apply str_in_In in Hd. rewrite Hd. reflexivity.
  - intros Hs Hd. apply str_in_not_In in Hs, Hd. rewrite Hs, Hd. reflexivity.
Qed.

Lemma first_offending_stage_is_named_witness :
  AggregationValidator.validate_pipeline match_then_out false 20
  = Raise (ValueError (py "Dangerous stage '$out' not allowed in safe mode")).
Proof.
  refine (proj1 (first_offending_stage_is_named
                   [PyDict [(py "$match", PyDict [(py "status", PyStr (py "active"))])]]
                   [] (py "$out") (PyStr (py "archive")) false 20 _ _) _ eq_refl).
  - constructor; [|constructor]. do 2 eexists. split; [reflexivity|]. left. simpl. tauto.
  - simpl. lia.
  - simpl. tauto.
Defined.

Lemma check_stage_ignores_body i name body body' allow :
  AggregationValidator.check_stage i (PyDict [(name, body)]) allow
  = AggregationValidator.check_stage i (PyDict [(name, body')]) allow.
Proof. reflexivity. Qed.

(** X12. The pipeline validator never looks into a stage body: two
    pipelines of one-key stages with the same stage names, in the same order,
    get the same verdict, error message included, whatever the bodies hold. *)
Theorem validate_pipeline_ignores_bodies (stages stages' : list (pystr * pyobj))
    (allow_dangerous : bool) (max_stages : Z) :
  map fst stages = map fst stages' ->
  AggregationValidator.validate_pipeline (map stage_of stages) allow_dangerous max_stages
  = AggregationValidator.validate_pipeline (map stage_of stages') allow_dangerous max_stages.
Proof.
  intros Hnames. unfold AggregationValidator.validate_pipeline.
  rewrite !length_map.
  assert (Hlen : List.length stages = List.length stages').
  { rewrite <- (length_map fst stages), Hnames. apply length_map. }
  rewrite Hlen.
  destruct (Z.of_nat (List.length stages') >? max_stages)%Z; [reflexivity|].
  clear Hlen. generalize 0%Z as i. revert stages' Hnames.
  induction stages as [|[name body] stages IH]; intros [|[name' body'] stages'] Hnames i;
    try discriminate; [reflexivity|].
  simpl in Hnames. injection Hnames as <- Hrest.
  cbn [map AggregationValidator.check_stages]. unfold stage_of at 1 3.
  rewrite (check_stage_ignores_body i name body body').
  destruct (AggregationValidator.check_stage i (PyDict [(name, body')]) allow_dangerous);
    cbn [rbind]; [|reflexivity].
  now apply IH.
Qed.

(** A [$match] whose body holds [$where] passes in safe mode, as an empty
    [$match] does. *)
Lemma validate_pipeline_ignores_bodies_witness :
  AggregationValidator.validate_pipeline (map stage_of match_where) false 20
  = AggregationValidator.validate_pipeline (map stage_of [(py "$match", PyDict [])]) false 20
  /\ AggregationValidator.validate_pipeline (map stage_of match_where) false 20 = OK tt.
Proof.
  split; [|reflexivity].
  exact (validate_pipeline_ignores_bodies match_where [(py "$match", PyDict [])] false 20
           eq_refl).
Defined.

(** ** What the handlers let through *)

Lemma try_except_never_operation_failure {A} (body : M A) (handler : exn -> M A) msg tr :
  (forall e tr', snd (handler e tr') <> Raise (OperationFailure msg)) ->
  snd (try_except body handler tr) <> Raise (OperationFailure msg).
Proof.
  intros Hh. unfold try_except.
  destruct (body tr) as [tr' [a|e]]; [discriminate | apply Hh].
Qed.

Lemma except_operation_failure_never {A} prefix e msg tr :
  snd (@except_operation_failure A prefix e tr) <> Raise (OperationFailure msg).
Proof. destruct e; discriminate. Qed.

(** X13. No handler lets a store [OperationFailure] reach the caller: every
    operation that can reach the store has an [except OperationFailure] clause
    that re-raises it as [RuntimeError], and the dangerous-mode gate raises
    [PermissionError]. *)
Theorem operation_failure_never_escapes
    (store : forall T, Motor.call T -> result T) (json_dumps builtin_str : pyobj -> pystr)
    (allow_dangerous : bool) (t : tool) (msg : pystr) :
  snd (run (call_tool store json_dumps builtin_str allow_dangerous t))
  <> Raise (OperationFailure msg).
Proof.
  unfold run.
  destruct t; cbn [call_tool];
    unfold find_documents, find_one_document, count_documents, insert_document,
      update_document, delete_document, aggregate_pipeline, explain_aggregation,
      create_index;
    try (destruct allow_dangerous; cbn [negb]; [|discriminate]);
    apply try_except_never_operation_failure; intros e tr';
    try apply except_operation_failure_never;
    destruct e; discriminate.
Qed.

(** Splits on the reply of the store call the goal mentions. *)
Ltac on_store_reply :=
  match goal with
  | |- context [?store ?T (@Motor.find ?a ?b ?c ?d ?e ?f ?g)] =>
      destruct (store T (Motor.find a b c d e f g)) as [?|[]]
  | |- context [?store ?T (@Motor.find_one ?a ?b ?c ?d)] =>
      destruct (store T (Motor.find_one a b c d)) as [[?|]|[]]
  | |- context [?store ?T (@Motor.count_documents ?a ?b ?c)] =>
      destruct (store T (Motor.count_documents a b c)) as [?|[]]
  | |- context [?store ?T (@Motor.insert_one ?a ?b ?c)] =>
      destruct (store T (Motor.insert_one a b c)) as [?|[]]
  | |- context [?store ?T (@Motor.update_many ?a ?b ?c ?d ?e)] =>
      destruct (store T (Motor.update_many a b c d e)) as [?|[]]
  | |- context [?store ?T (@Motor.delete_many ?a ?b ?c)] =>
      destruct (store T (Motor.delete_many a b c)) as [?|[]]
  | |- context [?store ?T (@Motor.aggregate ?a ?b ?c)] =>
      destruct (store T (Motor.aggregate a b c)) as [?|[]]
  | |- context [?store ?T (@Motor.aggregate_to_list ?a ?b ?c ?d)] =>
      destruct (store T (Motor.aggregate_to_list a b c d)) as [?|[]]
  | |- context [?store ?T (@Motor.create_index ?a ?b ?c ?d)] =>
      destruct (store T (Motor.create_index a b c d)) as [?|[]]
  end.

(** X14. One execution attempt per call: when the dangerous-mode gate, the
    validator and the sanitizer all pass, the handler calls the store exactly
    once, whether the store answers or raises. *)
Theorem store_called_once_when_gateway_passes
    (store : forall T, Motor.call T -> result T) (json_dumps builtin_str : pyobj -> pystr)
    (allow_dangerous : bool) (t : tool) :
  gateway json_dumps allow_dangerous t = OK tt ->
  List.length
    (store_events (fst (run (call_tool store json_dumps builtin_str allow_dangerous t))))
  = 1%nat.
Proof.
  unfold gateway, require_dangerous.
  destruct t.
  - unfold_handler.
    destruct (QueryValidator.validate_query (default_query query) allow_dangerous)
      as [[]|]; cbn [rbind]; [|discriminate].
    destruct (InputSanitizer.sanitize_query (default_query query)) as [q|]; cbn [rbind];
      [|discriminate].
    intros _. cbv beta iota. on_store_reply; reflexivity.
  - unfold_handler.
    destruct (QueryValidator.validate_query (default_query query) allow_dangerous)
      as [[]|]; cbn [rbind]; [|discriminate].
    destruct (InputSanitizer.sanitize_query (default_query query)) as [q|]; cbn [rbind];
      [|discriminate].
    intros _. cbv beta iota. on_store_reply; reflexivity.
  - unfold_handler.
    destruct (QueryValidator.validate_query (default_query query) allow_dangerous)
      as [[]|]; cbn [rbind]; [|discriminate].
    destruct (InputSanitizer.sanitize_query (default_query query)) as [q|]; cbn [rbind];
      [|discriminate].
    intros _. cbv beta iota. on_store_reply; reflexivity.
  - unfold_handler. destruct allow_dangerous; cbn [negb rbind]; [|discriminate].
    destruct (InputSanitizer.sanitize_document json_dumps document) as [d|]; cbn [rbind];
      [|discriminate].
    intros _. cbv beta iota. on_store_reply; reflexivity.
  - unfold_handler. destruct allow_dangerous; cbn [negb rbind]; [|discriminate].
    destruct (QueryValidator.validate_query query true) as [[]|]; cbn [rbind]; [|discriminate].
    destruct (InputSanitizer.sanitize_query query) as [q|]; cbn [rbind]; [|discriminate].
    destruct (InputSanitizer.sanitize_document json_dumps update) as [d|]; cbn [rbind];
      [|discriminate].
    intros _. cbv beta iota. on_store_reply; reflexivity.
  - unfold_handler. destruct allow_dangerous; cbn [negb rbind]; [|discriminate].
    destruct (QueryValidator.validate_query query true) as [[]|]; cbn [rbind]; [|discriminate].
    destruct (InputSanitizer.sanitize_query query) as [q|]; cbn [rbind]; [|discriminate].
    intros _. cbv beta iota. on_store_reply; reflexivity.
  - destruct (AggregationValidator.validate_pipeline pipeline allow_dangerous max_stages)
      as [[]|] eqn:Hv; cbn [rbind]; [|discriminate].
    destruct (comprehension InputSanitizer.sanitize_query pipeline) as [sanitized|] eqn:Hs;
      cbn [rbind]; [|discriminate].
    intros _. cbn [call_tool].
    rewrite (aggregate_pipeline_run store builtin_str allow_dangerous database collection
               pipeline limit max_stages sanitized Hv Hs _ eq_refl).
    cbn [fst]. unfold aggregation_trace.
    change (EvValidatePipeline pipeline :: ?l) with ([EvValidatePipeline pipeline] ++ l).
    rewrite !store_events_app, store_events_sanitize. reflexivity.
  - unfold_handler.
    destruct (AggregationValidator.validate_pipeline pipeline allow_dangerous 20)
      as [[]|]; [|discriminate].
    intros _. cbv beta iota. on_store_reply; reflexivity.
  - unfold_handler. destruct allow_dangerous; cbn [negb]; [|discriminate].
    intros _. cbv beta iota. on_store_reply; reflexivity.
Qed.

Lemma store_called_once_witness :
  gateway sample_json_dumps false
    (ToolCountDocuments (py "shop") (py "orders") (PyDict tidy)) = OK tt
  /\ List.length
       (store_events
          (fst (run (call_tool empty_store sample_json_dumps sample_str false
                       (ToolCountDocuments (py "shop") (py "orders") (PyDict tidy))))))
     = 1%nat.
Proof.
  split; [reflexivity|].
  exact (store_called_once_when_gateway_passes empty_store sample_json_dumps sample_str false
           (ToolCountDocuments (py "shop") (py "orders") (PyDict tidy)) eq_refl).
Defined.

(** ** The read path *)

(** X15. [find_documents] on a query that passes the validator and the
    sanitizer calls the store once, with the sanitized query; [skip] and
    [limit] reach the cursor only when positive (a limit of 0 or less asks for
    every document) and an empty [sort] is not applied. On an answer, the
    result reports the converted documents, their count, the sanitized query,
    and [hasMore] as "count equals limit"; a store failure is re-raised as
    [RuntimeError]. *)
Theorem find_documents_run
    (store : forall T, Motor.call T -> result T) (builtin_str : pyobj -> pystr)
    (allow_dangerous : bool) (database collection : pystr) (query projection : pyobj)
    (sort : option dict) (limit skip : Z) (query' : dict) :
  QueryValidator.validate_query (default_query query) allow_dangerous = OK tt ->
  InputSanitizer.sanitize_query (default_query query) = OK query' ->
  run (find_documents store builtin_str allow_dangerous database collection query projection
         sort limit skip)
  = (find_trace database collection query projection sort limit skip query',
     match store _ (Motor.find database collection query' projection (applied_sort sort)
                      (positive skip) (positive limit)) with
     | OK documents =>
         OK (PyDict [(py "documents",
                       PyList (map PyDict (map (convert_id builtin_str) documents)));
                     (py "count", PyInt (len (map (convert_id builtin_str) documents)));
                     (py "hasMore",
                       PyBool (len (map (convert_id builtin_str) documents) =? limit)%Z);
                     (py "query", PyDict query')])
     | Raise e =>
         Raise (match e with
                | OperationFailure _ => RuntimeError (py "Query failed: " ++ str_of_exn e)
                | _ => RuntimeError (py "Find operation failed: " ++ str_of_exn e)
                end)
     end).
Proof.
  intros Hv Hs. unfold_handler. rewrite Hv, Hs. cbv beta iota.
  unfold find_trace, applied_sort. cbn [app].
  match goal with
  | |- context [store ?T ?c] => destruct (store T c) as [documents|[]]
  end; reflexivity.
Qed.

Lemma find_documents_run_witness :
  run (find_documents empty_store sample_str false (py "shop") (py "orders") (PyDict tidy)
         PyNone None 0 0)
  = (find_trace (py "shop") (py "orders") (PyDict tidy) PyNone None 0 0 tidy,
     OK (PyDict [(py "documents", PyList []);
                 (py "count", PyInt 0);
                 (py "hasMore", PyBool true);
                 (py "query", PyDict tidy)])).
Proof.
  exact (find_documents_run empty_store sample_str false (py "shop") (py "orders")
           (PyDict tidy) PyNone None 0 0 tidy eq_refl eq_refl).
Defined.

Lemma clean_padded op : clean (32%N :: op) = clean op.
Proof. reflexivity. Qed.

(** X16. The validator sees the raw key and the store the cleaned one: in
    safe mode, [find_documents] on the one-key query whose key is a space
    followed by [op] passes the gateway for every clean [op] of fewer than
    1000 characters, an operator included, and the store receives the query
    with the key [op]. *)
Theorem find_documents_dispatches_cleaned_key
    (store : forall T, Motor.call T -> result T) (builtin_str : pyobj -> pystr)
    (database collection : pystr) (op : pystr) (value projection : pyobj)
    (sort : option dict) (limit skip : Z) :
  is_clean op = true ->
  (List.length op < 1000)%nat ->
  is_scalar value = true ->
  fst (run (find_documents store builtin_str false database collection
              (PyDict [(32%N :: op, value)]) projection sort limit skip))
  = find_trace database collection (PyDict [(32%N :: op, value)]) projection sort limit skip
      [(op, value)].
Proof.
  intros Hclean Hlen Hscalar.
  assert (Hv : QueryValidator.validate_query
                 (default_query (PyDict [(32%N :: op, value)])) false = OK tt).
  { cbn [default_query]. unfold QueryValidator.validate_query.
    rewrite ValidatorFacts.validate_dict_unfold. cbn [for_each].
    change (QueryValidator.check_key (32%N :: op) false) with (@OK unit tt). cbn [rbind].
    destruct value; try discriminate; reflexivity. }
  assert (Hs : InputSanitizer.sanitize_query
                 (default_query (PyDict [(32%N :: op, value)])) = OK [(op, value)]);
    [|unfold_handler; rewrite Hv, Hs; cbv beta iota;
      unfold find_trace, applied_sort; cbn [app];
      match goal with
      | |- context [store ?T ?c] => destruct (store T c) as [documents|[]]
      end; reflexivity].
  - cbn [default_query]. unfold InputSanitizer.sanitize_query.
    rewrite check_depth_root.
    assert (Hdepth : depth (PyDict [(32%N :: op, value)]) = 1%nat)
      by (destruct value; try discriminate; reflexivity).
    rewrite Hdepth. cbn [Nat.leb rbind].
    rewrite StructureFacts.sanitize_dict_by_value, for_each_acc_cons.
    rewrite SanitizerFacts.sanitize_string_str.
    assert (Hlim : within_limit (32%N :: op) = true).
    { unfold within_limit, InputSanitizer.MAX_STRING_LENGTH. apply negb_true_iff.
      rewrite Z.gtb_ltb. apply Z.ltb_ge. cbn [List.length]. lia. }
    rewrite Hlim. cbn [rbind]. rewrite clean_padded.
    apply str_eqb_eq in Hclean. rewrite Hclean.
    destruct value; try discriminate; reflexivity.
Qed.

(** [{" $where": 1}] in safe mode reaches the store as [{"$where": 1}]. *)
Lemma find_documents_dispatches_cleaned_key_witness :
  In (py "$where") QueryValidator.DANGEROUS_OPERATORS
  /\ fst (run (find_documents empty_store sample_str false (py "shop") (py "orders")
                 (PyDict [(py " $where", PyInt 1)]) PyNone None 100 0))
     = find_trace (py "shop") (py "orders") (PyDict [(py " $where", PyInt 1)]) PyNone None
         100 0 [(py "$where", PyInt 1)].
Proof.
  split; [simpl; tauto|].
  refine (find_documents_dispatches_cleaned_key empty_store sample_str (py "shop")
            (py "orders") (py "$where") (PyInt 1) PyNone None 100 0 eq_refl _ eq_refl).
  simpl. lia.
Defined.

(** ** Identifier conversion *)

Lemma dict_set_keys key value d :
  In key (dict_keys d) -> dict_keys (dict_set key value d) = dict_keys d.
Proof.
  induction d as [|[k v] d IH]; simpl; [contradiction|].
  destruct (str_eqb k key) eqn:E; [reflexivity|].
  intros [->|Hin]; [rewrite str_eqb_refl in E; discriminate|].
  simpl. now rewrite IH.
Qed.

Lemma dict_get_In key d value : dict_get key d = Some value -> In key (dict_keys d).
Proof.
  induction d as [|[k v] d IH]; simpl; [discriminate|].
  destruct (str_eqb k key) eqn:E.
  - apply str_eqb_eq in E. now left.
  - intros H. right. now apply IH.
Qed.

(** X17. The conversion of identifiers touches the top-level [_id] only: the
    keys and their order stay, every other key keeps its value (an ObjectId
    held there, or nested anywhere, stays an ObjectId), an ObjectId under
    [_id] becomes its string form and anything else under [_id] stays, and
    converting twice changes nothing more. *)
Theorem convert_id_only_top_level (builtin_str : pyobj -> pystr) (doc : dict) :
  dict_keys (convert_id builtin_str doc) = dict_keys doc
  /\ (forall key, key <> py "_id" ->
        dict_get key (convert_id builtin_str doc) = dict_get key doc)
  /\ (forall hex, dict_get (py "_id") doc = Some (PyObjectId hex) ->
        dict_get (py "_id") (convert_id builtin_str doc)
        = Some (PyStr (builtin_str (PyObjectId hex))))
  /\ ((forall hex, dict_get (py "_id") doc <> Some (PyObjectId hex)) ->
      convert_id builtin_str doc = doc)
  /\ convert_id builtin_str (convert_id builtin_str doc) = convert_id builtin_str doc.
Proof.
  unfold convert_id.
  destruct (dict_get (py "_id") doc) as [[| | | | |hex| | | |]|] eqn:E;
    try (repeat split; try reflexivity; try (intros; discriminate); rewrite E; reflexivity).
  repeat split.
  - apply dict_set_keys. eapply dict_get_In; eassumption.
  - intros key Hne. now apply dict_get_set_other.
  - intros hex' [= <-]. apply dict_get_set_same.
  - intros H. now contradiction (H hex).
  - now rewrite dict_get_set_same.
Qed.

(** ** The other aggregation and write paths *)

(** X18. [explain_aggregation] validates with the fixed limit of 20 stages
    and never calls the sanitizer: a longer pipeline is refused without a
    store call, and a pipeline that passes is sent to the store as it came,
    followed by the [$explain] stage, for one result. *)
Theorem explain_aggregation_run
    (store : forall T, Motor.call T -> result T)
    (allow_dangerous : bool) (database collection : pystr) (pipeline : list pyobj) :
  ((20 < Z.of_nat (List.length pipeline))%Z ->
   run (explain_aggregation store allow_dangerous database collection pipeline)
   = ([EvValidatePipeline pipeline],
      Raise (ValueError (py "Pipeline exceeds maximum 20 stages"))))
  /\ (AggregationValidator.validate_pipeline pipeline allow_dangerous 20 = OK tt ->
      fst (run (explain_aggregation store allow_dangerous database collection pipeline))
      = [EvValidatePipeline pipeline;
         EvStore (Motor.aggregate_to_list database collection
                    (pipeline ++ [explain_stage]) 1)]).
Proof.
  split.
  - intros Hlen. unfold_handler. unfold AggregationValidator.validate_pipeline.
    destruct (Z.of_nat (List.length pipeline) >? 20)%Z eqn:E; [reflexivity|].
    zbool. lia.
  - intros Hv. unfold_handler. rewrite Hv. cbv beta iota. unfold explain_stage.
    on_store_reply; reflexivity.
Qed.

(** X19. In dangerous mode [update_document] validates the query, sanitizes
    the query, sanitizes the update, in this order, and calls the store once
    with the two sanitized mappings and [upsert] as given; the update mapping
    is never handed to the query validator. *)
Theorem update_document_run
    (store : forall T, Motor.call T -> result T) (json_dumps builtin_str : pyobj -> pystr)
    (database collection : pystr) (query update : pyobj) (upsert : bool)
    (query' update' : dict) :
  QueryValidator.validate_query query true = OK tt ->
  InputSanitizer.sanitize_query query = OK query' ->
  InputSanitizer.sanitize_document json_dumps update = OK update' ->
  fst (run (update_document store json_dumps builtin_str true database collection
              query update upsert))
  = [EvValidateQuery query; EvSanitizeQuery query; EvSanitizeDocument update;
     EvStore (Motor.update_many database collection query' update' upsert)].
Proof.
  intros Hv Hq Hu. unfold_handler. cbn [negb]. rewrite Hv, Hq, Hu. cbv beta iota.
  on_store_reply; reflexivity.
Qed.

(** The update [{"$set": {"$where": 1}}] is not validated. *)
Lemma update_document_run_witness :
  fst (run (update_document empty_store sample_json_dumps sample_str true
              (py "shop") (py "orders") (PyDict tidy)
              (PyDict [(py "$set", PyDict [(py "$where", PyInt 1)])]) false))
  = [EvValidateQuery (PyDict tidy); EvSanitizeQuery (PyDict tidy);
     EvSanitizeDocument (PyDict [(py "$set", PyDict [(py "$where", PyInt 1)])]);
     EvStore (Motor.update_many (py "shop") (py "orders") tidy
                [(py "$set", PyDict [(py "$where", PyInt 1)])] false)].
Proof.
  exact (update_document_run empty_store sample_json_dumps sample_str (py "shop")
           (py "orders") (PyDict tidy) (PyDict [(py "$set", PyDict [(py "$where", PyInt 1)])])
           false tidy [(py "$set", PyDict [(py "$where", PyInt 1)])]
           eq_refl eq_refl eq_refl).
Defined.

(** ** Names of databases and collections *)

Lemma remove_chars_In (c : codepoint) v :
  In c (DocumentValidator.remove_char 45%N (DocumentValidator.remove_char 95%N v)) <->
  In c v /\ c <> 95%N /\ c <> 45%N.
Proof.
  unfold DocumentValidator.remove_char. rewrite !filter_In, !negb_true_iff, !N.eqb_neq.
  tauto.
Qed.

(** X20. [validate_name] returns the name it was given or raises: it accepts
    a name exactly when the name has at least one character other than ['_']
    and ['-'] and every such character is alphanumeric. A name made of
    underscores and hyphens only, the empty name included, is refused. *)
Theorem validate_name_accepts_iff (char_isalnum : codepoint -> bool) (v v' : pystr) :
  DocumentValidator.validate_name char_isalnum v = OK v' <->
  v' = v
  /\ (exists c, In c v /\ c <> 95%N /\ c <> 45%N)
  /\ (forall c, In c v -> c <> 95%N -> c <> 45%N -> char_isalnum c = true).
Proof.
  unfold DocumentValidator.validate_name, DocumentValidator.isalnum.
  remember (DocumentValidator.remove_char 45%N (DocumentValidator.remove_char 95%N v)) as w
    eqn:Ew.
  assert (Hin : forall c, In c w <-> In c v /\ c <> 95%N /\ c <> 45%N)
    by (intros c; rewrite Ew; apply remove_chars_In).
  clear Ew. split.
  - destruct w as [|c w]; [discriminate|]. cbn [List.length Nat.eqb negb andb].
    destruct (forallb char_isalnum (c :: w)) eqn:E; [|discriminate].
    cbn [negb]. intros [= <-]. split; [reflexivity|]. split.
    + exists c. apply Hin. now left.
    + intros x Hx H95 H45. rewrite forallb_forall in E. apply E. apply Hin. auto.
  - intros (-> & (c & Hc) & Hall).
    destruct w as [|x w]; [apply Hin in Hc; contradiction|].
    cbn [List.length Nat.eqb negb andb].
    assert (E : forallb char_isalnum (x :: w) = true).
    { apply forallb_forall. intros y Hy. apply Hin in Hy.
      destruct Hy as (Hy & H95 & H45). now apply Hall. }
    rewrite E. reflexivity.
Qed.

(** ** Keys that clean to the same string *)

(** X21. Two entries whose keys are cleaned to the same string are merged
    by the sanitizer into one, at the first position and with the last
    value: for scalar values [v1] and [v2] and keys within the length limit,
    [{k1: v1, k2: v2}] with [clean k1 = clean k2] is returned as
    [{clean k1: v2}]. *)
Theorem sanitize_dict_merges_colliding_keys (k1 k2 : pystr) (v1 v2 : pyobj) :
  within_limit k1 = true ->
  within_limit k2 = true ->
  clean k1 = clean k2 ->
  is_scalar v1 = true ->
  is_scalar v2 = true ->
  InputSanitizer._sanitize_dict (PyDict [(k1, v1); (k2, v2)]) = OK [(clean k1, v2)].
Proof.
  intros H1 H2 Hk Hv1 Hv2.
  assert (E1 : sanitize_value v1 = OK v1) by (destruct v1; try discriminate; reflexivity).
  assert (E2 : sanitize_value v2 = OK v2) by (destruct v2; try discriminate; reflexivity).
  rewrite StructureFacts.sanitize_dict_by_value, for_each_acc_cons.
  rewrite SanitizerFacts.sanitize_string_str, H1. cbn [rbind].
  rewrite E1. cbn [rbind dict_set]. rewrite for_each_acc_cons.
  rewrite SanitizerFacts.sanitize_string_str, H2. cbn [rbind].
  rewrite E2. cbn [rbind dict_set for_each_acc].
  rewrite <- Hk, str_eqb_refl. reflexivity.
Qed.

Lemma sanitize_dict_merges_colliding_keys_witness :
  InputSanitizer._sanitize_dict (PyDict colliding_keys) = OK [(py "a", PyInt 2)].
Proof.
  exact (sanitize_dict_merges_colliding_keys (py "a") (py " a") (PyInt 1) (PyInt 2)
           eq_refl eq_refl eq_refl eq_refl eq_refl).
Defined.
